(** * blockdev.c: a blk-mq block driver, its request path and its lifecycle

    A shallow embedding of [src/blockdev.c].  The driver's C functions become
    computations in a small state-and-fault monad over a [kernel] record that
    holds what the functions can observe or change: the log written by
    [printk]/[pr_info], the calls made into the block layer, the page memory
    that carries the segments of a request, the bytes of the buffer behind
    [dev->data], and the two globals [major_num] and [dev].

    Integer types follow the LP64 Linux ABI: [unsigned int] is 32 bits,
    [unsigned long], [sector_t] and [loff_t] are 64 bits. *)

From Stdlib Require Import ZArith List String Ascii Bool Lia.
Import ListNotations.
Local Open Scope Z_scope.

(** ** Constants *)

Definition BLOCK_DEV_NAME : string := "my_block_device".
Definition NR_SECTORS : Z := 1024.
Definition K_SECTOR_SIZE : Z := 512.
Definition BUFFER_SIZE : Z := 8.

(** Modelled from the spec: [SECTOR_SHIFT] is a macro of the host's headers,
    absent from the sources; the spec fixes the sector size at 512 bytes,
    that is a shift of 9. *)
Definition SECTOR_SHIFT : Z := 9.

(** Modelled from the spec: the error numbers behind [-EBUSY] and [-ENOMEM]
    are host constants, absent from the sources; the spec only asks for an
    error status code, the values are the host's usual ones. *)
Definition EBUSY : Z := 16.
Definition ENOMEM : Z := 12.

Definition nl : string := String (ascii_of_nat 10) EmptyString.

(** ** Machine integers *)

(** [unsigned int] *)
Definition u32 (x : Z) : Z := x mod 2 ^ 32.
(** [unsigned long], [sector_t] *)
Definition u64 (x : Z) : Z := x mod 2 ^ 64.
(** [loff_t]: conversion of a 64-bit pattern to the signed type *)
Definition s64 (x : Z) : Z := (x + 2 ^ 63) mod 2 ^ 64 - 2 ^ 63.

(** ** Pointers *)

Inductive ptr : Type :=
| NULL
| ERR_PTR (errno : Z)
| Obj (id : nat).

Definition is_null (p : ptr) : bool :=
  match p with NULL => true | _ => false end.

Definition is_obj (p : ptr) : bool :=
  match p with Obj _ => true | _ => false end.

(** ** Requests *)

Inductive direction : Type := READ | WRITE.

Definition direction_eqb (a b : direction) : bool :=
  match a, b with
  | READ, READ | WRITE, WRITE => true
  | _, _ => false
  end.

(** [struct bio_vec]: a page, an offset into it and a length ([unsigned int]) *)
Record bio_vec : Type := mk_bio_vec {
  bv_page : nat;
  bv_offset : Z;
  bv_len : Z
}.

(** What the driver reads of a [struct request]: the starting sector
    ([blk_rq_pos]), the direction ([rq_data_dir]) and the segments that
    [rq_for_each_segment] walks, in the order it yields them. *)
Record request : Type := mk_request {
  rq_tag : nat;
  __sector : Z;
  cmd_dir : direction;
  segments : list bio_vec
}.

Definition blk_rq_pos (rq : request) : Z := __sector rq.
Definition rq_data_dir (rq : request) : direction := cmd_dir rq.

Record blk_mq_queue_data : Type := mk_queue_data { bd_rq : request }.

Inductive blk_status_t : Type := BLK_STS_OK | BLK_STS_IOERR.

(** ** The driver's structures *)

(** [struct my_block_dev].  The embedded [tag_set] and [lock] are only ever
    handed to the host by address; the host's side of them is accounted for
    by the calls below. *)
Record my_block_dev : Type := mk_dev {
  gd : ptr;
  queue : ptr;
  data : ptr;
  size : Z
}.

Definition zeroed_dev : my_block_dev :=
  {| gd := NULL; queue := NULL; data := NULL; size := 0 |}.

Inductive block_device_operations : Type := my_bops.
Inductive blk_mq_ops : Type := my_bmq_ops.

(** The fields of [struct gendisk] that [init_fn] fills in. *)
Record gendisk : Type := mk_gendisk {
  major : Z;
  first_minor : Z;
  fops : option block_device_operations;
  gd_queue : ptr;
  private_data : bool;   (* true once it points at the descriptor *)
  disk_name : string;
  capacity : Z
}.

Definition blank_gendisk : gendisk :=
  {| major := 0; first_minor := 0; fops := None; gd_queue := NULL;
     private_data := false; disk_name := EmptyString; capacity := 0 |}.

(** ** Calls into the block layer *)

Inductive hcall : Type :=
| Cregister_blkdev (requested : Z) (name : string) (ret : Z)
| Cunregister_blkdev (number : Z) (name : string)
| Calloc_disk (minors : Z) (ret : ptr)
| Cblk_mq_init_sq_queue (ops : blk_mq_ops) (depth : Z) (ret : ptr)
| Cset_capacity (gd : ptr) (sectors : Z)
| Ckmalloc (bytes : Z) (ret : ptr)
| Cadd_disk (gd : ptr)
| Cdel_gendisk (gd : ptr)
| Cput_disk (gd : ptr)
| Cblk_mq_free_tag_set
| Cblk_cleanup_queue (q : ptr)
| Ckfree (p : ptr)
| Cblk_mq_start_request (rq : request)
| Cblk_update_request (rq : request) (status : blk_status_t) (nr_bytes : Z)
                      (ret : bool)
| C__blk_mq_end_request (rq : request) (status : blk_status_t).

(** What the host answers when called.  These are the inputs of the driver
    that do not come from its own state. *)
Record host : Type := mk_host {
  register_blkdev_ret : Z -> Z;
  alloc_disk_ret : ptr;
  blk_mq_init_sq_queue_ret : ptr;
  kmalloc_ret : ptr;
  blk_update_request_ret : request -> blk_status_t -> Z -> bool
}.

(** ** Kernel state *)

Record kernel : Type := mk_kernel {
  klog : list string;           (* printk / pr_info output, oldest first *)
  calls : list hcall;           (* calls into the host, oldest first *)
  pages : list (list Byte.byte);(* page memory, indexed by page number *)
  backing : list Byte.byte;     (* the bytes behind dev->data *)
  major_num : Z;                (* static int major_num *)
  dev : option my_block_dev;    (* struct my_block_dev *dev; None is NULL *)
  disk : gendisk                (* the object alloc_disk handed out *)
}.

Definition log_append (s : string) (k : kernel) : kernel :=
  {| klog := klog k ++ [s]; calls := calls k; pages := pages k;
     backing := backing k; major_num := major_num k; dev := dev k;
     disk := disk k |}.

Definition call_append (c : hcall) (k : kernel) : kernel :=
  {| klog := klog k; calls := calls k ++ [c]; pages := pages k;
     backing := backing k; major_num := major_num k; dev := dev k;
     disk := disk k |}.

Definition set_backing (b : list Byte.byte) (k : kernel) : kernel :=
  {| klog := klog k; calls := calls k; pages := pages k;
     backing := b; major_num := major_num k; dev := dev k;
     disk := disk k |}.

Definition set_major_num (m : Z) (k : kernel) : kernel :=
  {| klog := klog k; calls := calls k; pages := pages k;
     backing := backing k; major_num := m; dev := dev k;
     disk := disk k |}.

Definition set_dev (d : option my_block_dev) (k : kernel) : kernel :=
  {| klog := klog k; calls := calls k; pages := pages k;
     backing := backing k; major_num := major_num k; dev := d;
     disk := disk k |}.

Definition set_disk (g : gendisk) (k : kernel) : kernel :=
  {| klog := klog k; calls := calls k; pages := pages k;
     backing := backing k; major_num := major_num k; dev := dev k;
     disk := g |}.

(** The state at module load: C zero-initialises the globals, so
    [major_num] is 0 (its initialiser) and [dev] is the null pointer. *)
Definition module_load_state : kernel :=
  {| klog := []; calls := []; pages := []; backing := [];
     major_num := 0; dev := None; disk := blank_gendisk |}.

(** ** The monad: state, plus the two ways the kernel stops a function *)

Inductive fault : Type :=
| NullDeref      (* a store or load through a pointer that is no object *)
| BugOn.         (* BUG() *)

Inductive outcome (A : Type) : Type :=
| Done (a : A) (k : kernel)
| Oops (f : fault) (k : kernel).
Arguments Done {A} a k.
Arguments Oops {A} f k.

Definition M (A : Type) : Type := kernel -> outcome A.

Definition ret {A} (a : A) : M A := fun k => Done a k.

Definition bind {A B} (m : M A) (f : A -> M B) : M B :=
  fun k => match m k with
           | Done a k' => f a k'
           | Oops e k' => Oops e k'
           end.

Notation "x <- c1 ;; c2" := (bind c1 (fun x => c2))
  (at level 61, c1 at next level, right associativity).
Notation "c1 ;; c2" := (bind c1 (fun _ => c2))
  (at level 61, right associativity).

Definition final_state {A} (o : outcome A) : kernel :=
  match o with Done _ k => k | Oops _ k => k end.

Definition printk (s : string) : M unit := fun k => Done tt (log_append s k).
Definition pr_info (s : string) : M unit := printk s.
Definition host_call (c : hcall) : M unit := fun k => Done tt (call_append c k).
Definition BUG {A} : M A := fun k => Oops BugOn k.

Definition get_major_num : M Z := fun k => Done (major_num k) k.
Definition put_major_num (m : Z) : M unit := fun k => Done tt (set_major_num m k).

(** [dev->field] as an rvalue *)
Definition load_dev : M my_block_dev :=
  fun k => match dev k with
           | Some d => Done d k
           | None => Oops NullDeref k
           end.

(** [dev->field = v] *)
Definition store_dev (f : my_block_dev -> my_block_dev) : M unit :=
  fun k => match dev k with
           | Some d => Done tt (set_dev (Some (f d)) k)
           | None => Oops NullDeref k
           end.

(** [dev->gd->field = v] *)
Definition store_gd (f : gendisk -> gendisk) : M unit :=
  d <- load_dev ;;
  fun k => if is_obj (gd d) then Done tt (set_disk (f (disk k)) k)
           else Oops NullDeref k.

(** ** The request path *)

Definition page_address (page : nat) : nat := page.

Definition msg_write : string := ("Writing data to the blk-mq device" ++ nl)%string.
Definition msg_read : string := ("Reading data from the blk-mq device" ++ nl)%string.

(** The body of the loop in [do_request], on the locals [offset] and
    [*nr_bytes]. *)
Definition segment_body (rq : request) (bvec : bio_vec) (loc : Z * Z)
  : M (Z * Z) :=
  let (offset, nr_bytes) := loc in
  let data := (page_address (bv_page bvec), bv_offset bvec) in
  let data_len := bv_len bvec in
  (if direction_eqb (rq_data_dir rq) WRITE then printk msg_write
   else printk msg_read) ;;
  ret (s64 (offset + data_len), u32 (nr_bytes + data_len)).

(** [rq_for_each_segment]: the body once per segment, in the order given *)
Fixpoint rq_for_each_segment (body : bio_vec -> Z * Z -> M (Z * Z))
  (segs : list bio_vec) (loc : Z * Z) : M (Z * Z) :=
  match segs with
  | [] => ret loc
  | bvec :: rest => loc' <- body bvec loc ;; rq_for_each_segment body rest loc'
  end.

Definition do_request_offset0 (rq : request) : Z :=
  s64 (u64 (Z.shiftl (blk_rq_pos rq) SECTOR_SHIFT)).

(** [do_request] up to its [return]: the final values of the locals
    [offset] and [*nr_bytes] *)
Definition do_request_loop (rq : request) (nr_bytes : Z) : M (Z * Z) :=
  let offset := do_request_offset0 rq in
  rq_for_each_segment (segment_body rq) (segments rq) (offset, nr_bytes).

(** [int do_request(struct request *rq, unsigned int *nr_bytes)]: the
    returned [int] and the new value of [*nr_bytes] *)
Definition do_request (rq : request) (nr_bytes : Z) : M (Z * Z) :=
  loc <- do_request_loop rq nr_bytes ;;
  ret (0, snd loc).

Section RequestPath.

Variable h : host.

Definition blk_mq_start_request (rq : request) : M unit :=
  host_call (Cblk_mq_start_request rq).

Definition blk_update_request (rq : request) (status : blk_status_t)
  (nr_bytes : Z) : M bool :=
  let r := blk_update_request_ret h rq status nr_bytes in
  host_call (Cblk_update_request rq status nr_bytes r) ;; ret r.

Definition __blk_mq_end_request (rq : request) (status : blk_status_t)
  : M unit :=
  host_call (C__blk_mq_end_request rq status).

(** [my_queue_rq]; the [hctx] argument is not used by the code *)
Definition my_queue_rq (bd : blk_mq_queue_data) : M blk_status_t :=
  let nr_bytes := 0 in
  let status := BLK_STS_OK in
  let rq := bd_rq bd in
  blk_mq_start_request rq ;;
  r <- do_request rq nr_bytes ;;
  let nr_bytes := snd r in
  let status := if negb (fst r =? 0) then BLK_STS_IOERR else status in
  more <- blk_update_request rq status nr_bytes ;;
  (if (more : bool) then BUG else ret tt) ;;
  __blk_mq_end_request rq status ;;
  ret status.

End RequestPath.

(** ** The block device operations *)

Definition my_block_open : M Z :=
  pr_info ("Device opened successfully" ++ nl)%string ;; ret 0.

Definition my_block_release : M unit :=
  pr_info ("Device closed successfully" ++ nl)%string.

(** ** Setup and teardown *)

(** [snprintf(dst, size, src)] with a format free of conversions: at most
    [size - 1] characters are stored. *)
Definition snprintf (size : nat) (src : string) : string :=
  substring 0 (size - 1) src.

Section Lifecycle.

Variable h : host.

Definition register_blkdev (requested : Z) (name : string) : M Z :=
  let r := register_blkdev_ret h requested in
  host_call (Cregister_blkdev requested name r) ;; ret r.

Definition unregister_blkdev (number : Z) (name : string) : M unit :=
  host_call (Cunregister_blkdev number name).

Definition alloc_disk (minors : Z) : M ptr :=
  let r := alloc_disk_ret h in
  host_call (Calloc_disk minors r) ;; ret r.

Definition blk_mq_init_sq_queue (ops : blk_mq_ops) (depth : Z) : M ptr :=
  let r := blk_mq_init_sq_queue_ret h in
  host_call (Cblk_mq_init_sq_queue ops depth r) ;; ret r.

Definition set_capacity (g : ptr) (sectors : Z) : M unit :=
  host_call (Cset_capacity g sectors) ;;
  fun k => Done tt (set_disk
    {| major := major (disk k); first_minor := first_minor (disk k);
       fops := fops (disk k); gd_queue := gd_queue (disk k);
       private_data := private_data (disk k);
       disk_name := disk_name (disk k); capacity := sectors |} k).

Definition kmalloc (bytes : Z) : M ptr :=
  let r := kmalloc_ret h in
  host_call (Ckmalloc bytes r) ;; ret r.

Definition add_disk (g : ptr) : M unit := host_call (Cadd_disk g).
Definition del_gendisk (g : ptr) : M unit := host_call (Cdel_gendisk g).
Definition put_disk (g : ptr) : M unit := host_call (Cput_disk g).
Definition blk_mq_free_tag_set : M unit := host_call Cblk_mq_free_tag_set.
Definition blk_cleanup_queue (q : ptr) : M unit :=
  host_call (Cblk_cleanup_queue q).
Definition kfree (p : ptr) : M unit := host_call (Ckfree p).

(** The label [r_disk] of [init_fn] and what follows it *)
Definition r_disk : M Z :=
  m <- get_major_num ;;
  unregister_blkdev m BLOCK_DEV_NAME ;;
  ret (- ENOMEM).

(** The label [r_blk_init] of [init_fn]; it falls through to [r_disk] *)
Definition r_blk_init : M Z :=
  d <- load_dev ;;
  (if negb (is_null (gd d)) then del_gendisk (gd d) else ret tt) ;;
  d <- load_dev ;;
  (if negb (is_null (queue d))
   then blk_mq_free_tag_set ;; blk_cleanup_queue (queue d)
   else ret tt) ;;
  r_disk.

Definition init_fn : M Z :=
  m <- get_major_num ;;
  r <- register_blkdev m BLOCK_DEV_NAME ;;
  put_major_num r ;;
  m <- get_major_num ;;
  if m <? 0 then
    pr_info ("Failed to register blk device numbers" ++ nl)%string ;;
    ret (- EBUSY)
  else
    g <- alloc_disk 1 ;;
    store_dev (fun d => {| gd := g; queue := queue d; data := data d;
                           size := size d |}) ;;
    d <- load_dev ;;
    if is_null (gd d) then
      pr_info ("Failed to allocate disk" ++ nl)%string ;;
      r_disk
    else
      q <- blk_mq_init_sq_queue my_bmq_ops 128 ;;
      store_dev (fun d => {| gd := gd d; queue := q; data := data d;
                             size := size d |}) ;;
      m <- get_major_num ;;
      store_gd (fun g => {| major := m; first_minor := first_minor g;
                            fops := fops g; gd_queue := gd_queue g;
                            private_data := private_data g;
                            disk_name := disk_name g;
                            capacity := capacity g |}) ;;
      store_gd (fun g => {| major := major g; first_minor := 0;
                            fops := fops g; gd_queue := gd_queue g;
                            private_data := private_data g;
                            disk_name := disk_name g;
                            capacity := capacity g |}) ;;
      store_gd (fun g => {| major := major g; first_minor := first_minor g;
                            fops := Some my_bops; gd_queue := gd_queue g;
                            private_data := private_data g;
                            disk_name := disk_name g;
                            capacity := capacity g |}) ;;
      d <- load_dev ;;
      store_gd (fun g => {| major := major g; first_minor := first_minor g;
                            fops := fops g; gd_queue := queue d;
                            private_data := private_data g;
                            disk_name := disk_name g;
                            capacity := capacity g |}) ;;
      store_gd (fun g => {| major := major g; first_minor := first_minor g;
                            fops := fops g; gd_queue := gd_queue g;
                            private_data := true;
                            disk_name := disk_name g;
                            capacity := capacity g |}) ;;
      store_gd (fun g => {| major := major g; first_minor := first_minor g;
                            fops := fops g; gd_queue := gd_queue g;
                            private_data := private_data g;
                            disk_name := snprintf 32 BLOCK_DEV_NAME;
                            capacity := capacity g |}) ;;
      d <- load_dev ;;
      set_capacity (gd d) NR_SECTORS ;;
      store_dev (fun d => {| gd := gd d; queue := queue d; data := data d;
                             size := NR_SECTORS * K_SECTOR_SIZE |}) ;;
      b <- kmalloc BUFFER_SIZE ;;
      store_dev (fun d => {| gd := gd d; queue := queue d; data := b;
                             size := size d |}) ;;
      d <- load_dev ;;
      if is_null (data d) then
        pr_info ("Cannot allocate memory for dev" ++ nl)%string ;;
        r_blk_init
      else
        add_disk (gd d) ;;
        pr_info ("Kernel Module - " ++ BLOCK_DEV_NAME ++
                 " inserted successfully..." ++ nl)%string ;;
        ret 0.

Definition cleanup_fn : M unit :=
  d <- load_dev ;;
  (if negb (is_null (gd d))
   then del_gendisk (gd d) ;; put_disk (gd d)
   else ret tt) ;;
  d <- load_dev ;;
  (if negb (is_null (queue d))
   then blk_mq_free_tag_set ;; blk_cleanup_queue (queue d)
   else ret tt) ;;
  d <- load_dev ;;
  kfree (data d) ;;
  m <- get_major_num ;;
  unregister_blkdev m BLOCK_DEV_NAME ;;
  pr_info ("Device driver - " ++ BLOCK_DEV_NAME ++
           " removed successfully" ++ nl)%string.

End Lifecycle.

(** ** Resource accounting on the host's side

    The claims about setup and teardown speak of resources acquired and
    released.  The ledger reads them off the recorded calls: which resources
    are held, and which releases hit a resource that was not held (a release
    of something never acquired, or a second release). *)

Inductive resource : Type :=
| DevNumber     (* register_blkdev / unregister_blkdev *)
| DiskHandle    (* alloc_disk / put_disk *)
| Published     (* add_disk / del_gendisk *)
| Queue         (* blk_mq_init_sq_queue / blk_cleanup_queue *)
| TagSet        (* blk_mq_init_sq_queue / blk_mq_free_tag_set *)
| Buffer.       (* kmalloc / kfree *)

Definition resource_eqb (a b : resource) : bool :=
  match a, b with
  | DevNumber, DevNumber | DiskHandle, DiskHandle | Published, Published
  | Queue, Queue | TagSet, TagSet | Buffer, Buffer => true
  | _, _ => false
  end.

Record ledger : Type := mk_ledger {
  held : list resource;
  bad_release : list resource
}.

Definition empty_ledger : ledger := {| held := []; bad_release := [] |}.

Fixpoint remove_one (r : resource) (l : list resource)
  : option (list resource) :=
  match l with
  | [] => None
  | x :: rest =>
      if resource_eqb r x then Some rest
      else match remove_one r rest with
           | Some rest' => Some (x :: rest')
           | None => None
           end
  end.

Definition acquire (r : resource) (l : ledger) : ledger :=
  {| held := r :: held l; bad_release := bad_release l |}.

Definition release (r : resource) (l : ledger) : ledger :=
  match remove_one r (held l) with
  | Some rest => {| held := rest; bad_release := bad_release l |}
  | None => {| held := held l; bad_release := bad_release l ++ [r] |}
  end.

Definition account (l : ledger) (c : hcall) : ledger :=
  match c with
  | Cregister_blkdev _ _ r => if r <? 0 then l else acquire DevNumber l
  | Cunregister_blkdev _ _ => release DevNumber l
  | Calloc_disk _ r => if is_obj r then acquire DiskHandle l else l
  | Cblk_mq_init_sq_queue _ _ r =>
      if is_obj r then acquire TagSet (acquire Queue l) else l
  | Ckmalloc _ r => if is_obj r then acquire Buffer l else l
  | Cadd_disk _ => acquire Published l
  | Cdel_gendisk _ => release Published l
  | Cput_disk _ => release DiskHandle l
  | Cblk_mq_free_tag_set => release TagSet l
  | Cblk_cleanup_queue _ => release Queue l
  | Ckfree p => if is_null p then l else release Buffer l
  | Cset_capacity _ _ | Cblk_mq_start_request _
  | Cblk_update_request _ _ _ _ | C__blk_mq_end_request _ _ => l
  end.

Definition ledger_of (cs : list hcall) : ledger :=
  fold_left account cs empty_ledger.

(** ** Derived quantities used in the statements *)

(** The sum of the segment lengths of a request, [L1 + ... + Lk] *)
Definition seg_total (segs : list bio_vec) : Z :=
  fold_right (fun bv acc => bv_len bv + acc) 0 segs.

Definition blk_rq_bytes (rq : request) : Z := seg_total (segments rq).

(** The bytes a segment designates in page memory *)
Definition segment_bytes (k : kernel) (bv : bio_vec) : list Byte.byte :=
  firstn (Z.to_nat (bv_len bv))
         (skipn (Z.to_nat (bv_offset bv)) (nth (bv_page bv) (pages k) [])).

(** The values a well-formed request can carry: a sector and lengths within
    their C types, the total length within the 32 bits the host keeps it in,
    and a last byte address within [loff_t]. *)
Definition request_ok (rq : request) : bool :=
  (0 <=? __sector rq) &&
  forallb (fun bv => (0 <=? bv_len bv) && (bv_len bv <? 2 ^ 32)) (segments rq) &&
  (blk_rq_bytes rq <? 2 ^ 32) &&
  (__sector rq * 2 ^ SECTOR_SHIFT + blk_rq_bytes rq <? 2 ^ 63).

(** The request reaches past the end of the backing buffer *)
Definition out_of_bounds (rq : request) : bool :=
  BUFFER_SIZE <? __sector rq * 2 ^ SECTOR_SHIFT + blk_rq_bytes rq.

(** The calls extracted from a trace that report bytes to the host *)
Definition reported_bytes (cs : list hcall) : list Z :=
  flat_map (fun c => match c with
                     | Cblk_update_request _ _ n _ => [n]
                     | _ => []
                     end) cs.

Definition direction_msg (d : direction) : string :=
  if direction_eqb d WRITE then msg_write else msg_read.

(** [emit logs cs k]: the state [k] after the log lines [logs] and the host
    calls [cs] have been added, nothing else changed *)
Definition emit (logs : list string) (cs : list hcall) (k : kernel) : kernel :=
  {| klog := klog k ++ logs; calls := calls k ++ cs; pages := pages k;
     backing := backing k; major_num := major_num k; dev := dev k;
     disk := disk k |}.

Definition with_state {A} (f : kernel -> kernel) (o : outcome A) : outcome A :=
  match o with
  | Done a k => Done a (f k)
  | Oops e k => Oops e (f k)
  end.

Definition result_of {A} (o : outcome A) : option A :=
  match o with Done a _ => Some a | Oops _ _ => None end.

(** The calls one dispatch of [rq] adds when the host accepts the report *)
Definition dispatch_calls (rq : request) (st : blk_status_t) (n : Z)
  : list hcall :=
  [Cblk_mq_start_request rq; Cblk_update_request rq st n false;
   C__blk_mq_end_request rq st].

(** The spec's words for the write half of the Segment I/O Processor: the
    segment's bytes land in the backing store at the offset.  It is only
    compared with the code, never used to define it. *)
Definition spec_write_segment (store : list Byte.byte) (offset : nat)
  (bytes : list Byte.byte) : list Byte.byte :=
  firstn offset store ++ bytes ++ skipn (offset + List.length bytes) store.

(** ** Concrete inputs used by the worked scenarios *)

(** A host that hands out major 254 and three objects, and whose report call
    says data is still pending exactly when fewer bytes were reported than
    the request holds. *)
Definition host_ok : host :=
  {| register_blkdev_ret := fun _ => 254;
     alloc_disk_ret := Obj 1;
     blk_mq_init_sq_queue_ret := Obj 2;
     kmalloc_ret := Obj 3;
     blk_update_request_ret := fun rq _ n => n <? blk_rq_bytes rq |}.

Definition host_disk_fails : host :=
  {| register_blkdev_ret := fun _ => 254;
     alloc_disk_ret := NULL;
     blk_mq_init_sq_queue_ret := Obj 2;
     kmalloc_ret := Obj 3;
     blk_update_request_ret := fun rq _ n => n <? blk_rq_bytes rq |}.

Definition host_queue_fails : host :=
  {| register_blkdev_ret := fun _ => 254;
     alloc_disk_ret := Obj 1;
     blk_mq_init_sq_queue_ret := ERR_PTR (- ENOMEM);
     kmalloc_ret := Obj 3;
     blk_update_request_ret := fun rq _ n => n <? blk_rq_bytes rq |}.

Definition host_kmalloc_fails : host :=
  {| register_blkdev_ret := fun _ => 254;
     alloc_disk_ret := Obj 1;
     blk_mq_init_sq_queue_ret := Obj 2;
     kmalloc_ret := NULL;
     blk_update_request_ret := fun rq _ n => n <? blk_rq_bytes rq |}.

(** A host whose report call always answers that data is still pending *)
Definition host_pending : host :=
  {| register_blkdev_ret := fun _ => 254;
     alloc_disk_ret := Obj 1;
     blk_mq_init_sq_queue_ret := Obj 2;
     kmalloc_ret := Obj 3;
     blk_update_request_ret := fun _ _ _ => true |}.

(** A host that refuses the device number *)
Definition host_register_fails : host :=
  {| register_blkdev_ret := fun _ => - EBUSY;
     alloc_disk_ret := Obj 1;
     blk_mq_init_sq_queue_ret := Obj 2;
     kmalloc_ret := Obj 3;
     blk_update_request_ret := fun rq _ n => n <? blk_rq_bytes rq |}.

(** The host [h] with another answer to the queue creation *)
Definition with_queue_ret (q : ptr) (h : host) : host :=
  {| register_blkdev_ret := register_blkdev_ret h;
     alloc_disk_ret := alloc_disk_ret h;
     blk_mq_init_sq_queue_ret := q;
     kmalloc_ret := kmalloc_ret h;
     blk_update_request_ret := blk_update_request_ret h |}.

Definition is_add_disk (c : hcall) : bool :=
  match c with Cadd_disk _ => true | _ => false end.

(** Module-load state, except that [dev] points at a zeroed descriptor:
    the state [init_fn] would need and the sources never produce. *)
Definition descriptor_state : kernel :=
  set_dev (Some zeroed_dev) module_load_state.

Definition bytes_1_to_8 : list Byte.byte :=
  [Byte.x01; Byte.x02; Byte.x03; Byte.x04;
   Byte.x05; Byte.x06; Byte.x07; Byte.x08].

Definition zero_bytes_8 : list Byte.byte := repeat Byte.x00 8.

(** A serving device: an 8-byte zeroed buffer, one page holding 1..8 *)
Definition serving_state : kernel :=
  {| klog := []; calls := []; pages := [bytes_1_to_8];
     backing := zero_bytes_8; major_num := 254;
     dev := Some {| gd := Obj 1; queue := Obj 2; data := Obj 3;
                    size := NR_SECTORS * K_SECTOR_SIZE |};
     disk := blank_gendisk |}.

Definition seg8 : bio_vec := {| bv_page := 0; bv_offset := 0; bv_len := 8 |}.

(** Scenario A: write, sector 0, one segment of length 8 *)
Definition rq_scenario_A : request :=
  {| rq_tag := 0; __sector := 0; cmd_dir := WRITE; segments := [seg8] |}.

Definition scenario_A_outcome : outcome blk_status_t :=
  my_queue_rq host_ok (mk_queue_data rq_scenario_A) serving_state.

(** Scenario B: no segments *)
Definition rq_scenario_B : request :=
  {| rq_tag := 1; __sector := 0; cmd_dir := READ; segments := [] |}.

(** A write one sector in: bytes 512..519 of a device whose buffer has 8 *)
Definition rq_beyond_buffer : request :=
  {| rq_tag := 2; __sector := 1; cmd_dir := WRITE; segments := [seg8] |}.

(** A read of three segments, 4 + 2 + 2 bytes, from sector 0 *)
Definition rq_three_segments : request :=
  {| rq_tag := 3; __sector := 0; cmd_dir := READ;
     segments := [ {| bv_page := 0; bv_offset := 0; bv_len := 4 |};
                   {| bv_page := 0; bv_offset := 4; bv_len := 2 |};
                   {| bv_page := 0; bv_offset := 6; bv_len := 2 |} ] |}.

(** A write of three segments, 4 + 2 + 3 bytes, starting at sector 3 *)
Definition rq_sector3_segments : request :=
  {| rq_tag := 4; __sector := 3; cmd_dir := WRITE;
     segments := [ {| bv_page := 0; bv_offset := 0; bv_len := 4 |};
                   {| bv_page := 0; bv_offset := 4; bv_len := 2 |};
                   {| bv_page := 0; bv_offset := 6; bv_len := 3 |} ] |}.



(** Setup followed by teardown, as a test that simulates a failing
    setup step and then unloads would run them *)
Definition setup_then_teardown (h : host) : M unit :=
  init_fn h ;; cleanup_fn.

Definition balanced (l : ledger) : bool :=
  match held l, bad_release l with
  | [], [] => true
  | _, _ => false
  end.

(** * Proofs *)

(** ** Machine arithmetic *)

Lemma s64_small (x : Z) : - 2 ^ 63 <= x < 2 ^ 63 -> s64 x = x.
Proof.
  intros Hx. unfold s64. rewrite Z.mod_small; lia.
Qed.

Lemma s64_range (x : Z) : - 2 ^ 63 <= s64 x < 2 ^ 63.
Proof.
  unfold s64.
  pose proof (Z.mod_pos_bound (x + 2 ^ 63) (2 ^ 64) ltac:(lia)). lia.
Qed.

Lemma s64_add_l (a b : Z) : s64 (s64 a + b) = s64 (a + b).
Proof.
  unfold s64.
  replace ((a + 2 ^ 63) mod 2 ^ 64 - 2 ^ 63 + b + 2 ^ 63)
    with ((a + 2 ^ 63) mod 2 ^ 64 + b) by lia.
  rewrite Zplus_mod_idemp_l. do 2 f_equal. lia.
Qed.

Lemma u32_small (x : Z) : 0 <= x < 2 ^ 32 -> u32 x = x.
Proof. intros Hx. unfold u32. apply Z.mod_small; lia. Qed.

Lemma u32_add_l (a b : Z) : u32 (u32 a + b) = u32 (a + b).
Proof. unfold u32. apply Zplus_mod_idemp_l. Qed.

Lemma u64_small (x : Z) : 0 <= x < 2 ^ 64 -> u64 x = x.
Proof. intros Hx. unfold u64. apply Z.mod_small; lia. Qed.

(** ** Bookkeeping on [emit] *)

Lemma emit_nil (k : kernel) : emit [] [] k = k.
Proof. destruct k. unfold emit. simpl. now rewrite !app_nil_r. Qed.

Lemma emit_emit (l1 l2 : list string) (c1 c2 : list hcall) (k : kernel) :
  emit l2 c2 (emit l1 c1 k) = emit (l1 ++ l2) (c1 ++ c2) k.
Proof. unfold emit. simpl. now rewrite !app_assoc. Qed.

Lemma log_append_emit (s : string) (k : kernel) :
  log_append s k = emit [s] [] k.
Proof. unfold log_append, emit. now rewrite app_nil_r. Qed.

Lemma call_append_emit (c : hcall) (k : kernel) :
  call_append c k = emit [] [c] k.
Proof. unfold call_append, emit. now rewrite app_nil_r. Qed.

(** ** Sums of segment lengths *)

Lemma seg_total_cons (bv : bio_vec) (segs : list bio_vec) :
  seg_total (bv :: segs) = bv_len bv + seg_total segs.
Proof. reflexivity. Qed.

Lemma seg_total_nonneg (segs : list bio_vec) :
  forallb (fun bv => (0 <=? bv_len bv) && (bv_len bv <? 2 ^ 32)) segs = true ->
  0 <= seg_total segs.
Proof.
  induction segs as [|bv segs IH]; simpl; [lia|].
  rewrite !andb_true_iff. intros [[H0 _] Hrest].
  apply Z.leb_le in H0. specialize (IH Hrest). lia.
Qed.

Lemma seg_total_firstn_le (segs : list bio_vec) (i : nat) :
  forallb (fun bv => (0 <=? bv_len bv) && (bv_len bv <? 2 ^ 32)) segs = true ->
  0 <= seg_total (firstn i segs) <= seg_total segs.
Proof.
  revert i. induction segs as [|bv segs IH]; intros [|i]; simpl; try lia.
  - intros H. pose proof (seg_total_nonneg (bv :: segs) H) as Hn.
    simpl in Hn. lia.
  - rewrite !andb_true_iff. intros [[H0 _] Hrest].
    apply Z.leb_le in H0. specialize (IH i Hrest). lia.
Qed.

Lemma request_ok_bounds (rq : request) :
  request_ok rq = true ->
  0 <= __sector rq /\
  forallb (fun bv => (0 <=? bv_len bv) && (bv_len bv <? 2 ^ 32))
          (segments rq) = true /\
  0 <= blk_rq_bytes rq < 2 ^ 32 /\
  __sector rq * 2 ^ SECTOR_SHIFT + blk_rq_bytes rq < 2 ^ 63.
Proof.
  unfold request_ok. rewrite !andb_true_iff.
  intros [[[Hs Hf] Ht] He].
  apply Z.leb_le in Hs. apply Z.ltb_lt in Ht. apply Z.ltb_lt in He.
  pose proof (seg_total_nonneg _ Hf). unfold blk_rq_bytes in *.
  repeat split; auto; lia.
Qed.

(** ** The segment loop *)

Lemma segment_body_run (rq : request) (bvec : bio_vec) (off nr : Z)
  (k : kernel) :
  segment_body rq bvec (off, nr) k =
  Done (s64 (off + bv_len bvec), u32 (nr + bv_len bvec))
       (emit [direction_msg (rq_data_dir rq)] [] k).
Proof.
  unfold segment_body, direction_msg, bind, printk, ret.
  destruct (direction_eqb (rq_data_dir rq) WRITE);
    now rewrite log_append_emit.
Qed.

Lemma rq_for_each_segment_run (rq : request) (segs : list bio_vec) :
  forall (off nr : Z) (k : kernel),
    s64 off = off -> u32 nr = nr ->
    rq_for_each_segment (segment_body rq) segs (off, nr) k =
    Done (s64 (off + seg_total segs), u32 (nr + seg_total segs))
         (emit (repeat (direction_msg (rq_data_dir rq)) (List.length segs)) [] k).
Proof.
  induction segs as [|bv segs IH]; intros off nr k Hoff Hnr;
    cbn [rq_for_each_segment List.length repeat]; rewrite ?seg_total_cons.
  - unfold ret. cbn [seg_total fold_right].
    now rewrite !Z.add_0_r, Hoff, Hnr, emit_nil.
  - unfold bind at 1. rewrite segment_body_run.
    rewrite IH.
    + rewrite s64_add_l, u32_add_l, emit_emit, !Z.add_assoc. reflexivity.
    + rewrite <- (Z.add_0_r (s64 (off + bv_len bv))) at 1.
      now rewrite s64_add_l, Z.add_0_r.
    + rewrite <- (Z.add_0_r (u32 (nr + bv_len bv))) at 1.
      now rewrite u32_add_l, Z.add_0_r.
Qed.

(** The loop on a concatenation is the loop on the first part followed by
    the loop on the second, started from where the first one stopped. *)
Lemma rq_for_each_segment_app (body : bio_vec -> Z * Z -> M (Z * Z))
  (s1 s2 : list bio_vec) :
  forall (loc : Z * Z) (k : kernel),
    rq_for_each_segment body (s1 ++ s2) loc k =
    bind (rq_for_each_segment body s1 loc) (rq_for_each_segment body s2) k.
Proof.
  induction s1 as [|bv s1 IH]; intros loc k;
    cbn [app rq_for_each_segment].
  - reflexivity.
  - unfold bind in *. destruct (body bv loc k) as [loc' k'|e k'].
    + apply IH.
    + reflexivity.
Qed.

Lemma do_request_offset0_range (rq : request) :
  s64 (do_request_offset0 rq) = do_request_offset0 rq.
Proof. apply s64_small, s64_range. Qed.

Lemma do_request_loop_run (rq : request) (nr : Z) (k : kernel) :
  u32 nr = nr ->
  do_request_loop rq nr k =
  Done (s64 (do_request_offset0 rq + blk_rq_bytes rq),
        u32 (nr + blk_rq_bytes rq))
       (emit (repeat (direction_msg (rq_data_dir rq))
                     (List.length (segments rq))) [] k).
Proof.
  intros Hnr. unfold do_request_loop.
  now rewrite rq_for_each_segment_run by (auto using do_request_offset0_range).
Qed.

Lemma do_request_run (rq : request) (nr : Z) (k : kernel) :
  u32 nr = nr ->
  do_request rq nr k =
  Done (0, u32 (nr + blk_rq_bytes rq))
       (emit (repeat (direction_msg (rq_data_dir rq))
                     (List.length (segments rq))) [] k).
Proof.
  intros Hnr. unfold do_request, bind.
  now rewrite do_request_loop_run.
Qed.

(** The offset after the loop, whatever the byte counter started from *)
Lemma rq_for_each_segment_offset (rq : request) (segs : list bio_vec) :
  forall (off nr : Z) (k : kernel),
    s64 off = off ->
    exists n',
      rq_for_each_segment (segment_body rq) segs (off, nr) k =
      Done (s64 (off + seg_total segs), n')
           (emit (repeat (direction_msg (rq_data_dir rq)) (List.length segs))
                 [] k).
Proof.
  induction segs as [|bv segs IH]; intros off nr k Hoff;
    cbn [rq_for_each_segment List.length repeat]; rewrite ?seg_total_cons.
  - exists nr. unfold ret. cbn [seg_total fold_right].
    now rewrite Z.add_0_r, Hoff, emit_nil.
  - unfold bind at 1. rewrite segment_body_run.
    destruct (IH (s64 (off + bv_len bv)) (u32 (nr + bv_len bv))
                 (emit [direction_msg (rq_data_dir rq)] [] k)) as [n' E].
    + apply s64_small, s64_range.
    + exists n'. rewrite E, s64_add_l, emit_emit, Z.add_assoc. reflexivity.
Qed.

(** ** One dispatch, in closed form *)

Lemma my_queue_rq_run (h : host) (bd : blk_mq_queue_data) (k : kernel) :
  let rq := bd_rq bd in
  let n := u32 (blk_rq_bytes rq) in
  let logs := repeat (direction_msg (rq_data_dir rq)) (List.length (segments rq)) in
  my_queue_rq h bd k =
  if blk_update_request_ret h rq BLK_STS_OK n
  then Oops BugOn
         (emit logs [Cblk_mq_start_request rq;
                     Cblk_update_request rq BLK_STS_OK n true] k)
  else Done BLK_STS_OK (emit logs (dispatch_calls rq BLK_STS_OK n) k).
Proof.
  intros rq n logs. unfold my_queue_rq.
  fold rq. unfold blk_mq_start_request, host_call.
  unfold bind at 1. rewrite call_append_emit.
  unfold bind at 1. rewrite do_request_run by reflexivity.
  cbn [fst snd Z.eqb negb]. rewrite Z.add_0_l. fold n. fold logs.
  unfold blk_update_request, __blk_mq_end_request, host_call, BUG, bind, ret.
  rewrite !call_append_emit, !emit_emit. cbn [app].
  destruct (blk_update_request_ret h rq BLK_STS_OK n).
  - now rewrite app_nil_r.
  - rewrite call_append_emit, emit_emit, !app_nil_r. reflexivity.
Qed.

Lemma reported_bytes_app (c1 c2 : list hcall) :
  reported_bytes (c1 ++ c2) = reported_bytes c1 ++ reported_bytes c2.
Proof. unfold reported_bytes. apply flat_map_app. Qed.

(** The report always carries the sum of the lengths reduced to 32 bits. *)
Lemma my_queue_rq_reports_mod (h : host) (bd : blk_mq_queue_data) (k : kernel) :
  reported_bytes (calls (final_state (my_queue_rq h bd k))) =
  reported_bytes (calls k) ++ [u32 (blk_rq_bytes (bd_rq bd))].
Proof.
  rewrite my_queue_rq_run.
  destruct (blk_update_request_ret h (bd_rq bd) BLK_STS_OK
              (u32 (blk_rq_bytes (bd_rq bd))));
    cbn [final_state emit calls]; now rewrite reported_bytes_app.
Qed.

(** When the host answers that data is still pending, the dispatcher stops
    in [BUG()] after the report and before the completion call. *)
Lemma my_queue_rq_pending_bug (h : host) (bd : blk_mq_queue_data) (k : kernel) :
  blk_update_request_ret h (bd_rq bd) BLK_STS_OK
    (u32 (blk_rq_bytes (bd_rq bd))) = true ->
  exists k',
    my_queue_rq h bd k = Oops BugOn k' /\
    calls k' = calls k ++
      [Cblk_mq_start_request (bd_rq bd);
       Cblk_update_request (bd_rq bd) BLK_STS_OK
         (u32 (blk_rq_bytes (bd_rq bd))) true].
Proof.
  intros Hmore. rewrite my_queue_rq_run. cbv zeta. rewrite Hmore.
  eexists. split; reflexivity.
Qed.

(** With the sample host a well-formed request never ends in [BUG()]. *)
Lemma host_ok_accepts (rq : request) :
  request_ok rq = true ->
  blk_update_request_ret host_ok rq BLK_STS_OK (u32 (blk_rq_bytes rq)) = false.
Proof.
  intros Hok. destruct (request_ok_bounds rq Hok) as (_ & _ & Hb & _).
  cbn [blk_update_request_ret host_ok]. rewrite u32_small by lia.
  apply Z.ltb_irrefl.
Qed.

(** ** The claims on the request path *)

(** C1, as stated, fails on scenario A: the write request at sector 0 with
    one segment of length 8 completes with success and 8 bytes reported, and
    the first 8 bytes of the backing store are still the zeros they were,
    not the segment's content 1..8 that the spec's write would have put
    there. *)
Lemma scenario_A_write_not_stored :
  result_of scenario_A_outcome = Some BLK_STS_OK /\
  reported_bytes (calls (final_state scenario_A_outcome)) = [8] /\
  segment_bytes serving_state seg8 = bytes_1_to_8 /\
  firstn 8 (backing (final_state scenario_A_outcome)) = zero_bytes_8 /\
  firstn 8 (backing (final_state scenario_A_outcome))
    <> segment_bytes serving_state seg8 /\
  backing (final_state scenario_A_outcome)
    <> spec_write_segment (backing serving_state) 0
         (segment_bytes serving_state seg8).
Proof.
  repeat apply conj; try (vm_compute; reflexivity); vm_compute; discriminate.
Qed.

(** C1 (amended): for every request, of either direction, [do_request]
    copies nothing in either direction.  Per segment it writes the log line
    of the request's direction; the backing store and the page memory that
    holds the segments are left as they were, and the call returns 0. *)
Theorem do_request_copies_nothing (rq : request) (nr : Z) (k : kernel) :
  exists (v : Z) (k' : kernel),
    do_request rq nr k = Done (0, v) k' /\
    klog k' = klog k ++ repeat (direction_msg (rq_data_dir rq))
                               (List.length (segments rq)) /\
    backing k' = backing k /\
    pages k' = pages k /\
    (forall bv, segment_bytes k' bv = segment_bytes k bv).
Proof.
  unfold do_request, do_request_loop, bind.
  destruct (rq_for_each_segment_offset rq (segments rq)
              (do_request_offset0 rq) nr k (do_request_offset0_range rq))
    as [n' E].
  rewrite E. exists n'. eexists. split; [reflexivity|].
  repeat apply conj; reflexivity.
Qed.

(** C2: for a well-formed request with segments of lengths L1..Lk the
    dispatcher reports exactly L1 + ... + Lk bytes to the host (no segment
    step can fail, so this is every dispatch). *)
Theorem my_queue_rq_reports_sum (h : host) (bd : blk_mq_queue_data)
  (k : kernel) :
  request_ok (bd_rq bd) = true ->
  reported_bytes (calls (final_state (my_queue_rq h bd k))) =
  reported_bytes (calls k) ++ [blk_rq_bytes (bd_rq bd)].
Proof.
  intros Hok. destruct (request_ok_bounds _ Hok) as (_ & _ & Hb & _).
  rewrite my_queue_rq_reports_mod, u32_small by lia. reflexivity.
Qed.

Lemma my_queue_rq_reports_sum_witness :
  request_ok rq_three_segments = true /\
  reported_bytes
    (calls (final_state
       (my_queue_rq host_ok (mk_queue_data rq_three_segments) serving_state)))
  = reported_bytes (calls serving_state) ++ [blk_rq_bytes rq_three_segments].
Proof.
  split.
  - reflexivity.
  - apply (my_queue_rq_reports_sum host_ok (mk_queue_data rq_three_segments)
             serving_state).
    reflexivity.
Defined.

(** C3, as stated, fails: a write at sector 1 (bytes 512..519, past the
    8-byte buffer) completes with the success status, not the I/O-error
    status. *)
Lemma out_of_bounds_request_reports_success :
  out_of_bounds rq_beyond_buffer = true /\
  my_queue_rq host_ok (mk_queue_data rq_beyond_buffer) serving_state =
    Done BLK_STS_OK
      (emit [msg_write] (dispatch_calls rq_beyond_buffer BLK_STS_OK 8)
            serving_state) /\
  BLK_STS_OK <> BLK_STS_IOERR.
Proof.
  repeat apply conj; try (vm_compute; reflexivity). discriminate.
Qed.

(** C3 (amended): a request that reaches past the backing buffer is not
    checked against it.  When the host accepts the report, it completes with
    the success status, the dispatcher returns normally, the backing store
    and the page memory are untouched, and a request dispatched afterwards
    gets the result, the log lines and the host calls it would have got
    without it. *)
Theorem out_of_bounds_request_contained (h : host) (bd : blk_mq_queue_data)
  (k : kernel) :
  out_of_bounds (bd_rq bd) = true ->
  blk_update_request_ret h (bd_rq bd) BLK_STS_OK
    (u32 (blk_rq_bytes (bd_rq bd))) = false ->
  exists k',
    my_queue_rq h bd k = Done BLK_STS_OK k' /\
    backing k' = backing k /\
    pages k' = pages k /\
    forall bd2,
      result_of (my_queue_rq h bd2 k') = result_of (my_queue_rq h bd2 k) /\
      exists logs cs,
        final_state (my_queue_rq h bd2 k') = emit logs cs k' /\
        final_state (my_queue_rq h bd2 k) = emit logs cs k.
Proof.
  intros _ Hacc. rewrite my_queue_rq_run. cbv zeta. rewrite Hacc.
  eexists. split; [reflexivity|]. split; [reflexivity|].
  split; [reflexivity|].
  intros bd2. rewrite !my_queue_rq_run. cbv zeta.
  destruct (blk_update_request_ret h (bd_rq bd2) BLK_STS_OK
              (u32 (blk_rq_bytes (bd_rq bd2))));
    (split; [reflexivity|]); do 2 eexists; split; reflexivity.
Qed.

Lemma out_of_bounds_request_contained_witness :
  out_of_bounds rq_beyond_buffer = true /\
  blk_update_request_ret host_ok rq_beyond_buffer BLK_STS_OK
    (u32 (blk_rq_bytes rq_beyond_buffer)) = false /\
  exists k',
    my_queue_rq host_ok (mk_queue_data rq_beyond_buffer) serving_state
      = Done BLK_STS_OK k' /\
    backing k' = backing serving_state /\
    pages k' = pages serving_state /\
    forall bd2,
      result_of (my_queue_rq host_ok bd2 k')
        = result_of (my_queue_rq host_ok bd2 serving_state) /\
      exists logs cs,
        final_state (my_queue_rq host_ok bd2 k') = emit logs cs k' /\
        final_state (my_queue_rq host_ok bd2 serving_state)
          = emit logs cs serving_state.
Proof.
  split; [reflexivity|]. split; [reflexivity|].
  apply (out_of_bounds_request_contained host_ok
           (mk_queue_data rq_beyond_buffer) serving_state); reflexivity.
Defined.

Lemma do_request_offset0_exact (rq : request) :
  request_ok rq = true ->
  do_request_offset0 rq = __sector rq * 2 ^ SECTOR_SHIFT.
Proof.
  intros Hok. destruct (request_ok_bounds rq Hok) as (Hs & _ & Hb & He).
  unfold do_request_offset0, blk_rq_pos.
  rewrite Z.shiftl_mul_pow2 by (unfold SECTOR_SHIFT; lia).
  assert (0 <= __sector rq * 2 ^ SECTOR_SHIFT)
    by (apply Z.mul_nonneg_nonneg; [lia | unfold SECTOR_SHIFT; lia]).
  rewrite u64_small by lia. apply s64_small. lia.
Qed.

Lemma seg_total_app (s1 s2 : list bio_vec) :
  seg_total (s1 ++ s2) = seg_total s1 + seg_total s2.
Proof.
  induction s1 as [|bv s1 IH]; cbn [app]; rewrite ?seg_total_cons.
  - reflexivity.
  - rewrite IH. lia.
Qed.

Lemma seg_total_split (s1 s2 : list bio_vec) (bv : bio_vec) :
  forallb (fun bv => (0 <=? bv_len bv) && (bv_len bv <? 2 ^ 32))
          (s1 ++ bv :: s2) = true ->
  0 <= seg_total s1 /\ 0 <= bv_len bv /\ 0 <= seg_total s2 /\
  seg_total (s1 ++ bv :: s2) = seg_total s1 + bv_len bv + seg_total s2.
Proof.
  rewrite forallb_app. cbn [forallb]. rewrite !andb_true_iff.
  intros (H1 & (Hbv & _) & H2). apply Z.leb_le in Hbv.
  pose proof (seg_total_nonneg s1 H1). pose proof (seg_total_nonneg s2 H2).
  rewrite seg_total_app, seg_total_cons. lia.
Qed.

(** A body that only logs a tag of the segment it is given shows the order
    of the walk: the tags come out in the order of the list. *)
Lemma rq_for_each_segment_tags (tag : bio_vec -> string)
  (segs : list bio_vec) :
  forall (loc : Z * Z) (k : kernel),
    rq_for_each_segment (fun bv l => printk (tag bv) ;; ret l) segs loc k =
    Done loc (emit (map tag segs) [] k).
Proof.
  induction segs as [|bv segs IH]; intros loc k;
    cbn [rq_for_each_segment map].
  - unfold ret. now rewrite emit_nil.
  - unfold bind at 1. unfold bind at 1. unfold printk, ret at 1.
    rewrite IH, log_append_emit, emit_emit. reflexivity.
Qed.

(** C4: for a well-formed request the offset starts at the starting sector
    shifted left by [SECTOR_SHIFT].  The segments are walked in the order of
    the request's list: the walk, whatever body it is given, runs the body
    on the head of the list and then walks the rest (so a walk over a list
    split in two is the walk over the first part followed by the walk over
    the second, and a body that logs a tag of its segment leaves the tags
    in list order); [do_request] is that walk over the request's segments,
    and it reaches each segment with the offset at the start plus the
    lengths of the segments before it and leaves it advanced by the
    segment's own length.  After all segments the offset is the start plus
    L1 + ... + Lk. *)
Theorem do_request_offset_advance (rq : request) (nr : Z) (k : kernel) :
  request_ok rq = true ->
  do_request_offset0 rq = Z.shiftl (blk_rq_pos rq) SECTOR_SHIFT /\
  (forall (body : bio_vec -> Z * Z -> M (Z * Z)) (loc : Z * Z)
          (k0 : kernel),
      rq_for_each_segment body [] loc k0 = Done loc k0) /\
  (forall (body : bio_vec -> Z * Z -> M (Z * Z)) (bv : bio_vec)
          (rest : list bio_vec) (loc : Z * Z) (k0 : kernel),
      rq_for_each_segment body (bv :: rest) loc k0 =
      bind (body bv loc) (rq_for_each_segment body rest) k0) /\
  (forall (body : bio_vec -> Z * Z -> M (Z * Z)) (s1 s2 : list bio_vec)
          (loc : Z * Z) (k0 : kernel),
      rq_for_each_segment body (s1 ++ s2) loc k0 =
      bind (rq_for_each_segment body s1 loc)
           (rq_for_each_segment body s2) k0) /\
  (forall (tag : bio_vec -> string) (segs : list bio_vec) (loc : Z * Z)
          (k0 : kernel),
      rq_for_each_segment (fun bv l => printk (tag bv) ;; ret l) segs loc k0 =
      Done loc (emit (map tag segs) [] k0)) /\
  do_request_loop rq nr k =
    rq_for_each_segment (segment_body rq) (segments rq)
      (do_request_offset0 rq, nr) k /\
  (forall (s1 s2 : list bio_vec) (bv : bio_vec),
      segments rq = s1 ++ bv :: s2 ->
      exists n1 k1 n2 k2,
        rq_for_each_segment (segment_body rq) s1
          (do_request_offset0 rq, nr) k =
        Done (do_request_offset0 rq + seg_total s1, n1) k1 /\
        segment_body rq bv (do_request_offset0 rq + seg_total s1, n1) k1 =
        Done (do_request_offset0 rq + seg_total s1 + bv_len bv, n2) k2 /\
        do_request_loop rq nr k =
        rq_for_each_segment (segment_body rq) s2
          (do_request_offset0 rq + seg_total s1 + bv_len bv, n2) k2) /\
  (exists n' k',
      do_request_loop rq nr k =
      Done (do_request_offset0 rq + blk_rq_bytes rq, n') k').
Proof.
  intros Hok. pose proof (do_request_offset0_exact rq Hok) as H0.
  destruct (request_ok_bounds rq Hok) as (Hs & Hf & Hb & He).
  assert (Hpos : 0 <= __sector rq * 2 ^ SECTOR_SHIFT)
    by (apply Z.mul_nonneg_nonneg; [lia | unfold SECTOR_SHIFT; lia]).
  split; [|split; [|split; [|split; [|split; [|split; [|split]]]]]].
  - rewrite H0. unfold blk_rq_pos.
    now rewrite Z.shiftl_mul_pow2 by (unfold SECTOR_SHIFT; lia).
  - reflexivity.
  - reflexivity.
  - intros body s1 s2 loc k0. apply rq_for_each_segment_app.
  - intros tag segs loc k0. apply rq_for_each_segment_tags.
  - reflexivity.
  - intros s1 s2 bv Hsplit. unfold do_request_loop. rewrite Hsplit.
    unfold blk_rq_bytes in *. rewrite Hsplit in Hf, Hb, He.
    destruct (seg_total_split s1 s2 bv Hf) as (P1 & Pbv & P2 & Ptot).
    rewrite Ptot in Hb, He.
    destruct (rq_for_each_segment_offset rq s1 (do_request_offset0 rq) nr k
                (do_request_offset0_range rq)) as [n1 E1].
    rewrite (s64_small (do_request_offset0 rq + seg_total s1)) in E1 by lia.
    exists n1. eexists. exists (u32 (n1 + bv_len bv)). eexists.
    split; [exact E1|].
    assert (Ebody :
      segment_body rq bv (do_request_offset0 rq + seg_total s1, n1)
        (emit (repeat (direction_msg (rq_data_dir rq)) (List.length s1)) [] k)
      = Done (do_request_offset0 rq + seg_total s1 + bv_len bv,
              u32 (n1 + bv_len bv))
             (emit [direction_msg (rq_data_dir rq)] []
                (emit (repeat (direction_msg (rq_data_dir rq))
                         (List.length s1)) [] k))).
    { rewrite segment_body_run. f_equal. f_equal. apply s64_small. lia. }
    split; [exact Ebody|].
    rewrite rq_for_each_segment_app. unfold bind at 1. rewrite E1.
    cbn [rq_for_each_segment]. unfold bind at 1. rewrite Ebody.
    reflexivity.
  - unfold do_request_loop.
    destruct (rq_for_each_segment_offset rq (segments rq)
                (do_request_offset0 rq) nr k (do_request_offset0_range rq))
      as [n' E].
    exists n'. eexists. rewrite E. do 2 f_equal.
    unfold blk_rq_bytes in *. apply s64_small. lia.
Qed.

Lemma do_request_offset_advance_witness :
  request_ok rq_sector3_segments = true /\
  do_request_offset0 rq_sector3_segments = 1536 /\
  do_request_offset0 rq_sector3_segments
    = Z.shiftl (blk_rq_pos rq_sector3_segments) SECTOR_SHIFT /\
  (forall (body : bio_vec -> Z * Z -> M (Z * Z)) (loc : Z * Z)
          (k0 : kernel),
      rq_for_each_segment body [] loc k0 = Done loc k0) /\
  (forall (body : bio_vec -> Z * Z -> M (Z * Z)) (bv : bio_vec)
          (rest : list bio_vec) (loc : Z * Z) (k0 : kernel),
      rq_for_each_segment body (bv :: rest) loc k0 =
      bind (body bv loc) (rq_for_each_segment body rest) k0) /\
  (forall (body : bio_vec -> Z * Z -> M (Z * Z)) (s1 s2 : list bio_vec)
          (loc : Z * Z) (k0 : kernel),
      rq_for_each_segment body (s1 ++ s2) loc k0 =
      bind (rq_for_each_segment body s1 loc)
           (rq_for_each_segment body s2) k0) /\
  (forall (tag : bio_vec -> string) (segs : list bio_vec) (loc : Z * Z)
          (k0 : kernel),
      rq_for_each_segment (fun bv l => printk (tag bv) ;; ret l) segs loc k0 =
      Done loc (emit (map tag segs) [] k0)) /\
  do_request_loop rq_sector3_segments 0 serving_state =
    rq_for_each_segment (segment_body rq_sector3_segments)
      (segments rq_sector3_segments)
      (do_request_offset0 rq_sector3_segments, 0) serving_state /\
  (forall (s1 s2 : list bio_vec) (bv : bio_vec),
      segments rq_sector3_segments = s1 ++ bv :: s2 ->
      exists n1 k1 n2 k2,
        rq_for_each_segment (segment_body rq_sector3_segments) s1
          (do_request_offset0 rq_sector3_segments, 0) serving_state =
        Done (do_request_offset0 rq_sector3_segments + seg_total s1, n1) k1 /\
        segment_body rq_sector3_segments bv
          (do_request_offset0 rq_sector3_segments + seg_total s1, n1) k1 =
        Done (do_request_offset0 rq_sector3_segments + seg_total s1
              + bv_len bv, n2) k2 /\
        do_request_loop rq_sector3_segments 0 serving_state =
        rq_for_each_segment (segment_body rq_sector3_segments) s2
          (do_request_offset0 rq_sector3_segments + seg_total s1
           + bv_len bv, n2) k2) /\
  (exists n' k',
      do_request_loop rq_sector3_segments 0 serving_state =
      Done (do_request_offset0 rq_sector3_segments
            + blk_rq_bytes rq_sector3_segments, n') k').
Proof.
  split; [reflexivity|]. split; [reflexivity|].
  apply (do_request_offset_advance rq_sector3_segments 0 serving_state).
  reflexivity.
Defined.

(** The walk of the request at sector 3, observed: the offsets and counts
    after 0, 1, 2 and 3 segments, and the order in which a body that logs
    the page offset of its segment sees the segments. *)
Example rq_sector3_segments_walk :
  map (fun i => result_of
         (rq_for_each_segment (segment_body rq_sector3_segments)
            (firstn i (segments rq_sector3_segments))
            (do_request_offset0 rq_sector3_segments, 0) serving_state))
      [0; 1; 2; 3]%nat
  = [Some (1536, 0); Some (1540, 4); Some (1542, 6); Some (1545, 9)] /\
  klog (final_state
          (rq_for_each_segment
             (fun bv l =>
                printk (if bv_offset bv =? 0 then "first"
                        else if bv_offset bv =? 4 then "second"
                        else "third") ;; ret l)
             (segments rq_sector3_segments) (0, 0) serving_state))
  = ["first"; "second"; "third"]%string.
Proof. split; vm_compute; reflexivity. Qed.

(** The cursor of the three-segment request, segment by segment *)
Example rq_three_segments_cursor :
  map (fun i => result_of
         (rq_for_each_segment (segment_body rq_three_segments)
            (firstn i (segments rq_three_segments)) (0, 0) serving_state))
      [0; 1; 2; 3]%nat
  = [Some (0, 0); Some (4, 4); Some (6, 6); Some (8, 8)].
Proof. reflexivity. Qed.

(** C5: a request with no segments is completed with the success status and
    zero bytes reported (the host accepting the report). *)
Theorem my_queue_rq_zero_segments (h : host) (bd : blk_mq_queue_data)
  (k : kernel) :
  segments (bd_rq bd) = [] ->
  blk_update_request_ret h (bd_rq bd) BLK_STS_OK 0 = false ->
  exists k',
    my_queue_rq h bd k = Done BLK_STS_OK k' /\
    calls k' = calls k ++ dispatch_calls (bd_rq bd) BLK_STS_OK 0 /\
    reported_bytes (calls k') = reported_bytes (calls k) ++ [0].
Proof.
  intros Hnil Hacc. rewrite my_queue_rq_run. cbv zeta.
  unfold blk_rq_bytes. rewrite Hnil. cbn [seg_total fold_right].
  change (u32 0) with 0. rewrite Hacc.
  eexists. split; [reflexivity|]. split; [reflexivity|].
  cbn [emit calls]. now rewrite reported_bytes_app.
Qed.

Lemma my_queue_rq_zero_segments_witness :
  segments rq_scenario_B = [] /\
  blk_update_request_ret host_ok rq_scenario_B BLK_STS_OK 0 = false /\
  exists k',
    my_queue_rq host_ok (mk_queue_data rq_scenario_B) serving_state
      = Done BLK_STS_OK k' /\
    calls k' = calls serving_state
               ++ dispatch_calls rq_scenario_B BLK_STS_OK 0 /\
    reported_bytes (calls k') = reported_bytes (calls serving_state) ++ [0].
Proof.
  split; [reflexivity|]. split; [reflexivity|].
  apply (my_queue_rq_zero_segments host_ok (mk_queue_data rq_scenario_B)
           serving_state); reflexivity.
Defined.

(** C6: for every request whose report the host accepts, the dispatcher
    makes exactly three calls into the host, in this order: the start call,
    the report of bytes and status, the completion call; the report and the
    completion carry the same status. *)
Theorem my_queue_rq_call_order (h : host) (bd : blk_mq_queue_data)
  (k : kernel) :
  blk_update_request_ret h (bd_rq bd) BLK_STS_OK
    (u32 (blk_rq_bytes (bd_rq bd))) = false ->
  exists st n k',
    my_queue_rq h bd k = Done st k' /\
    calls k' = calls k ++
      [Cblk_mq_start_request (bd_rq bd);
       Cblk_update_request (bd_rq bd) st n false;
       C__blk_mq_end_request (bd_rq bd) st].
Proof.
  intros Hacc. rewrite my_queue_rq_run. cbv zeta. rewrite Hacc.
  do 3 eexists. split; reflexivity.
Qed.

Lemma my_queue_rq_call_order_witness :
  blk_update_request_ret host_ok rq_scenario_A BLK_STS_OK
    (u32 (blk_rq_bytes rq_scenario_A)) = false /\
  exists st n k',
    my_queue_rq host_ok (mk_queue_data rq_scenario_A) serving_state
      = Done st k' /\
    calls k' = calls serving_state ++
      [Cblk_mq_start_request rq_scenario_A;
       Cblk_update_request rq_scenario_A st n false;
       C__blk_mq_end_request rq_scenario_A st].
Proof.
  split; [reflexivity|].
  apply (my_queue_rq_call_order host_ok (mk_queue_data rq_scenario_A)
           serving_state).
  reflexivity.
Defined.

(** C10: a dispatch never touches the backing buffer.  Its bytes after the
    dispatch are its bytes before, and the dispatch does the same whatever
    bytes the buffer holds: run on a state with other buffer contents it
    gives the same result, log and calls, with those contents still in
    place. *)
Theorem my_queue_rq_backing_untouched (h : host) (bd : blk_mq_queue_data)
  (k : kernel) :
  backing (final_state (my_queue_rq h bd k)) = backing k /\
  forall b : list Byte.byte,
    my_queue_rq h bd (set_backing b k) =
    with_state (set_backing b) (my_queue_rq h bd k).
Proof.
  split.
  - rewrite my_queue_rq_run. cbv zeta.
    now destruct (blk_update_request_ret h (bd_rq bd) BLK_STS_OK
                    (u32 (blk_rq_bytes (bd_rq bd)))).
  - intros b. rewrite !my_queue_rq_run. cbv zeta.
    now destruct (blk_update_request_ret h (bd_rq bd) BLK_STS_OK
                    (u32 (blk_rq_bytes (bd_rq bd)))).
Qed.

(** ** Setup and teardown *)

Ltac run_monad :=
  cbv [init_fn cleanup_fn r_blk_init r_disk setup_then_teardown
       register_blkdev unregister_blkdev alloc_disk blk_mq_init_sq_queue
       set_capacity kmalloc add_disk del_gendisk put_disk
       blk_mq_free_tag_set blk_cleanup_queue kfree
       get_major_num put_major_num load_dev store_dev store_gd
       pr_info printk host_call bind ret];
  cbn [klog calls pages backing major_num dev disk
       log_append call_append set_major_num set_dev set_disk
       gd queue data size].

Ltac state_simpl :=
  cbn [klog calls pages backing major_num dev disk
       log_append call_append set_major_num set_dev set_disk].

Ltac by_evaluation := repeat apply conj; vm_compute; reflexivity.

(** Registration failure: [-EBUSY] is returned after the one call, with
    nothing acquired and nothing released. *)
Lemma init_fn_register_failure (h : host) (k : kernel) :
  register_blkdev_ret h (major_num k) < 0 ->
  exists k',
    init_fn h k = Done (- EBUSY) k' /\
    calls k' = calls k ++
      [Cregister_blkdev (major_num k) BLOCK_DEV_NAME
         (register_blkdev_ret h (major_num k))].
Proof.
  intros Hneg. run_monad.
  apply Z.ltb_lt in Hneg. rewrite Hneg. run_monad.
  eexists. split; reflexivity.
Qed.

(** Disk-allocation failure, with a descriptor in place: the registration
    is released, nothing else, and [-ENOMEM] is returned. *)
Lemma init_fn_disk_failure (h : host) (k : kernel) (d : my_block_dev) :
  dev k = Some d ->
  0 <= register_blkdev_ret h (major_num k) ->
  alloc_disk_ret h = NULL ->
  exists k',
    init_fn h k = Done (- ENOMEM) k' /\
    calls k' = calls k ++
      [Cregister_blkdev (major_num k) BLOCK_DEV_NAME
         (register_blkdev_ret h (major_num k));
       Calloc_disk 1 NULL;
       Cunregister_blkdev (register_blkdev_ret h (major_num k))
         BLOCK_DEV_NAME].
Proof.
  intros Hdev Hreg Hdisk. run_monad.
  apply Z.ltb_ge in Hreg. rewrite Hreg. run_monad.
  rewrite Hdev, Hdisk. run_monad. cbn [is_null]. run_monad.
  eexists. split; [reflexivity|]. state_simpl.
  now rewrite <- !app_assoc.
Qed.

(** Without a descriptor every run that gets past registration stops at the
    first store through [dev], with the device number and the disk handle
    acquired and nothing released. *)
Lemma init_fn_without_descriptor (h : host) (k : kernel) :
  dev k = None ->
  0 <= register_blkdev_ret h (major_num k) ->
  exists k',
    init_fn h k = Oops NullDeref k' /\
    dev k' = None /\
    calls k' = calls k ++
      [Cregister_blkdev (major_num k) BLOCK_DEV_NAME
         (register_blkdev_ret h (major_num k));
       Calloc_disk 1 (alloc_disk_ret h)].
Proof.
  intros Hdev Hreg. run_monad.
  apply Z.ltb_ge in Hreg. rewrite Hreg. run_monad. rewrite Hdev.
  eexists. split; [reflexivity|]. state_simpl. split; [assumption|].
  now rewrite <- !app_assoc.
Qed.

Lemma cleanup_fn_without_descriptor (k : kernel) :
  dev k = None -> cleanup_fn k = Oops NullDeref k.
Proof. intros Hdev. run_monad. now rewrite Hdev. Qed.

(** After a complete setup (descriptor in place, every host call
    succeeding) teardown releases each acquired resource once. *)
Example teardown_after_complete_setup :
  result_of (setup_then_teardown host_ok descriptor_state) = Some tt /\
  balanced (ledger_of
    (calls (final_state (init_fn host_ok descriptor_state)))) = false /\
  balanced (ledger_of
    (calls (final_state (setup_then_teardown host_ok descriptor_state))))
  = true.
Proof. by_evaluation. Qed.

(** C9 fails on the code: nothing allocates the descriptor.  From the state
    at module load, where [dev] is the null pointer, [init_fn] registers the
    device number, calls [alloc_disk] and stops at the store of its result
    into [dev->gd], a store through the null pointer. *)
Theorem init_fn_null_descriptor :
  dev module_load_state = None /\
  init_fn host_ok module_load_state
    = Oops NullDeref (final_state (init_fn host_ok module_load_state)) /\
  dev (final_state (init_fn host_ok module_load_state)) = None /\
  calls (final_state (init_fn host_ok module_load_state))
    = [Cregister_blkdev 0 BLOCK_DEV_NAME 254; Calloc_disk 1 (Obj 1)] /\
  held (ledger_of (calls (final_state (init_fn host_ok module_load_state))))
    = [DiskHandle; DevNumber].
Proof. by_evaluation. Qed.

(** C7 fails on the code.  With a descriptor in place and the queue
    creation failing, [init_fn] does not look at the result: it goes on to
    publish the disk with the error pointer as its queue and returns 0,
    unwinding nothing.  With the buffer allocation failing, it returns
    [-ENOMEM] after calling [del_gendisk] on a disk that was never
    published and without [put_disk], so the disk handle stays held. *)
Theorem init_fn_failure_paths_unsound :
  (result_of (init_fn host_queue_fails descriptor_state) = Some 0 /\
   calls (final_state (init_fn host_queue_fails descriptor_state)) =
     [Cregister_blkdev 0 BLOCK_DEV_NAME 254; Calloc_disk 1 (Obj 1);
      Cblk_mq_init_sq_queue my_bmq_ops 128 (ERR_PTR (- ENOMEM));
      Cset_capacity (Obj 1) NR_SECTORS; Ckmalloc BUFFER_SIZE (Obj 3);
      Cadd_disk (Obj 1)] /\
   gd_queue (disk (final_state (init_fn host_queue_fails descriptor_state)))
     = ERR_PTR (- ENOMEM) /\
   held (ledger_of
           (calls (final_state (init_fn host_queue_fails descriptor_state))))
     = [Published; Buffer; DiskHandle; DevNumber]) /\
  (result_of (init_fn host_kmalloc_fails descriptor_state)
     = Some (- ENOMEM) /\
   calls (final_state (init_fn host_kmalloc_fails descriptor_state)) =
     [Cregister_blkdev 0 BLOCK_DEV_NAME 254; Calloc_disk 1 (Obj 1);
      Cblk_mq_init_sq_queue my_bmq_ops 128 (Obj 2);
      Cset_capacity (Obj 1) NR_SECTORS; Ckmalloc BUFFER_SIZE NULL;
      Cdel_gendisk (Obj 1); Cblk_mq_free_tag_set;
      Cblk_cleanup_queue (Obj 2);
      Cunregister_blkdev 254 BLOCK_DEV_NAME] /\
   ledger_of
     (calls (final_state (init_fn host_kmalloc_fails descriptor_state)))
     = {| held := [DiskHandle]; bad_release := [Published] |}).
Proof. by_evaluation. Qed.

Lemma ledger_of_app (c1 c2 : list hcall) :
  ledger_of (c1 ++ c2) = fold_left account c2 (ledger_of c1).
Proof. unfold ledger_of. apply fold_left_app. Qed.




(** * Further properties of the request path *)

Lemma s64_u64_add (x y : Z) : s64 (s64 (u64 x) + y) = s64 (x + y).
Proof.
  rewrite s64_add_l. unfold s64, u64.
  replace (x mod 2 ^ 64 + y + 2 ^ 63) with (x mod 2 ^ 64 + (y + 2 ^ 63)) by lia.
  rewrite Zplus_mod_idemp_l. do 2 f_equal. lia.
Qed.

Lemma u32_idem (x : Z) : u32 (u32 x) = u32 x.
Proof. unfold u32. apply Zmod_mod. Qed.

(** The dispatcher has two outcomes only: it returns [BLK_STS_OK], or it
    stops in [BUG()].  It never returns [BLK_STS_IOERR], whatever the
    request, the state and the host, and it never faults on a pointer. *)
Theorem my_queue_rq_never_ioerr (h : host) (bd : blk_mq_queue_data)
  (k : kernel) :
  (exists k', my_queue_rq h bd k = Done BLK_STS_OK k') \/
  (exists k', my_queue_rq h bd k = Oops BugOn k').
Proof.
  rewrite my_queue_rq_run. cbv zeta.
  destruct (blk_update_request_ret h (bd_rq bd) BLK_STS_OK
              (u32 (blk_rq_bytes (bd_rq bd)))).
  - right. eexists. reflexivity.
  - left. eexists. reflexivity.
Qed.

(** The calls of one dispatch, for any host and any lengths: the start
    call, then the report with the success status and the sum of the
    lengths reduced modulo 2^32 (the counter is an [unsigned int]), then the
    completion call unless the host answered that data is pending. *)
Theorem my_queue_rq_trace (h : host) (bd : blk_mq_queue_data) (k : kernel) :
  exists more : bool,
    more = blk_update_request_ret h (bd_rq bd) BLK_STS_OK
             (blk_rq_bytes (bd_rq bd) mod 2 ^ 32) /\
    calls (final_state (my_queue_rq h bd k)) =
    calls k ++
      [Cblk_mq_start_request (bd_rq bd);
       Cblk_update_request (bd_rq bd) BLK_STS_OK
         (blk_rq_bytes (bd_rq bd) mod 2 ^ 32) more] ++
      (if more then [] else [C__blk_mq_end_request (bd_rq bd) BLK_STS_OK]).
Proof.
  eexists. split; [reflexivity|].
  rewrite my_queue_rq_run. cbv zeta. fold (u32 (blk_rq_bytes (bd_rq bd))).
  destruct (blk_update_request_ret h (bd_rq bd) BLK_STS_OK
              (u32 (blk_rq_bytes (bd_rq bd)))); reflexivity.
Qed.

Lemma my_queue_rq_pending_bug_witness :
  blk_update_request_ret host_pending rq_scenario_A BLK_STS_OK
    (u32 (blk_rq_bytes rq_scenario_A)) = true /\
  exists k',
    my_queue_rq host_pending (mk_queue_data rq_scenario_A) serving_state
      = Oops BugOn k' /\
    calls k' = calls serving_state ++
      [Cblk_mq_start_request rq_scenario_A;
       Cblk_update_request rq_scenario_A BLK_STS_OK
         (u32 (blk_rq_bytes rq_scenario_A)) true].
Proof.
  split; [reflexivity|].
  apply (my_queue_rq_pending_bug host_pending (mk_queue_data rq_scenario_A)
           serving_state).
  reflexivity.
Defined.

(** [do_request] adds to the counter it is handed, it does not reset it:
    two calls in a row on the same counter leave the counter's start value
    plus the lengths of both requests, modulo 2^32. *)
Theorem do_request_accumulates (rq1 rq2 : request) (nr : Z) (k : kernel) :
  0 <= nr < 2 ^ 32 ->
  exists k',
    bind (do_request rq1 nr) (fun r => do_request rq2 (snd r)) k =
    Done (0, (nr + blk_rq_bytes rq1 + blk_rq_bytes rq2) mod 2 ^ 32) k'.
Proof.
  intros Hnr. unfold bind.
  rewrite do_request_run by (apply u32_small; exact Hnr).
  cbn [snd]. rewrite do_request_run by apply u32_idem.
  rewrite u32_add_l. eexists. reflexivity.
Qed.

Lemma do_request_accumulates_witness :
  0 <= 5 < 2 ^ 32 /\
  exists k',
    bind (do_request rq_scenario_A 5)
         (fun r => do_request rq_three_segments (snd r)) serving_state =
    Done (0, (5 + blk_rq_bytes rq_scenario_A
                + blk_rq_bytes rq_three_segments) mod 2 ^ 32) k'.
Proof.
  split; [lia|].
  apply (do_request_accumulates rq_scenario_A rq_three_segments 5
           serving_state).
  lia.
Defined.

(** The offset [do_request] ends with, for any sector and any lengths: the
    byte address [sector * 512 + L1 + ... + Lk] reduced to a signed 64-bit
    value.  Nothing bounds it by the device size or by the buffer size. *)
Theorem do_request_offset_wraps (rq : request) (nr : Z) (k : kernel) :
  exists n' k',
    do_request_loop rq nr k =
    Done (s64 (__sector rq * 512 + blk_rq_bytes rq), n') k'.
Proof.
  unfold do_request_loop.
  destruct (rq_for_each_segment_offset rq (segments rq)
              (do_request_offset0 rq) nr k (do_request_offset0_range rq))
    as [n' E].
  exists n'. eexists. rewrite E. do 2 f_equal.
  unfold do_request_offset0, blk_rq_pos, blk_rq_bytes.
  rewrite s64_u64_add, Z.shiftl_mul_pow2 by (unfold SECTOR_SHIFT; lia).
  reflexivity.
Qed.

(** Two dispatches in a row keep separate counts: each report carries the
    bytes of its own request, and the calls of the second follow the calls
    of the first. *)
Theorem my_queue_rq_twice (h : host) (bd1 bd2 : blk_mq_queue_data)
  (k : kernel) :
  blk_update_request_ret h (bd_rq bd1) BLK_STS_OK
    (u32 (blk_rq_bytes (bd_rq bd1))) = false ->
  blk_update_request_ret h (bd_rq bd2) BLK_STS_OK
    (u32 (blk_rq_bytes (bd_rq bd2))) = false ->
  exists k',
    bind (my_queue_rq h bd1) (fun _ => my_queue_rq h bd2) k
      = Done BLK_STS_OK k' /\
    calls k' = calls k
      ++ dispatch_calls (bd_rq bd1) BLK_STS_OK (u32 (blk_rq_bytes (bd_rq bd1)))
      ++ dispatch_calls (bd_rq bd2) BLK_STS_OK (u32 (blk_rq_bytes (bd_rq bd2))) /\
    reported_bytes (calls k') = reported_bytes (calls k)
      ++ [u32 (blk_rq_bytes (bd_rq bd1)); u32 (blk_rq_bytes (bd_rq bd2))].
Proof.
  intros H1 H2. unfold bind.
  rewrite my_queue_rq_run. cbv zeta. rewrite H1.
  rewrite my_queue_rq_run. cbv zeta. rewrite H2.
  eexists. split; [reflexivity|].
  rewrite emit_emit. cbn [emit calls]. split; [reflexivity|].
  now rewrite reported_bytes_app.
Qed.

Lemma my_queue_rq_twice_witness :
  blk_update_request_ret host_ok rq_scenario_A BLK_STS_OK
    (u32 (blk_rq_bytes rq_scenario_A)) = false /\
  blk_update_request_ret host_ok rq_three_segments BLK_STS_OK
    (u32 (blk_rq_bytes rq_three_segments)) = false /\
  exists k',
    bind (my_queue_rq host_ok (mk_queue_data rq_scenario_A))
         (fun _ => my_queue_rq host_ok (mk_queue_data rq_three_segments))
         serving_state
      = Done BLK_STS_OK k' /\
    calls k' = calls serving_state
      ++ dispatch_calls rq_scenario_A BLK_STS_OK
           (u32 (blk_rq_bytes rq_scenario_A))
      ++ dispatch_calls rq_three_segments BLK_STS_OK
           (u32 (blk_rq_bytes rq_three_segments)) /\
    reported_bytes (calls k') = reported_bytes (calls serving_state)
      ++ [u32 (blk_rq_bytes rq_scenario_A);
          u32 (blk_rq_bytes rq_three_segments)].
Proof.
  split; [reflexivity|]. split; [reflexivity|].
  apply (my_queue_rq_twice host_ok (mk_queue_data rq_scenario_A)
           (mk_queue_data rq_three_segments) serving_state); reflexivity.
Defined.

(** The request path does not use the device descriptor: a dispatch leaves
    [dev], [major_num], the disk object and the page memory as they were,
    and it runs the same whatever [dev] is, the null pointer included. *)
Theorem my_queue_rq_ignores_descriptor (h : host) (bd : blk_mq_queue_data)
  (k : kernel) :
  dev (final_state (my_queue_rq h bd k)) = dev k /\
  major_num (final_state (my_queue_rq h bd k)) = major_num k /\
  disk (final_state (my_queue_rq h bd k)) = disk k /\
  pages (final_state (my_queue_rq h bd k)) = pages k /\
  forall d : option my_block_dev,
    my_queue_rq h bd (set_dev d k) =
    with_state (set_dev d) (my_queue_rq h bd k).
Proof.
  rewrite my_queue_rq_run. cbv zeta.
  repeat apply conj;
    try (destruct (blk_update_request_ret h (bd_rq bd) BLK_STS_OK
                     (u32 (blk_rq_bytes (bd_rq bd)))); reflexivity).
  intros d. rewrite my_queue_rq_run. cbv zeta.
  now destruct (blk_update_request_ret h (bd_rq bd) BLK_STS_OK
                  (u32 (blk_rq_bytes (bd_rq bd)))).
Qed.

(** * Further properties of setup and teardown *)

(** Case analysis on a run of [init_fn] or [cleanup_fn]: the state and the
    host are opened into their fields, so that every step computes. *)
Ltac open_state h k :=
  destruct k as [lg cs pg bk mj dv dk];
  destruct h as [reg ad qr km upd];
  cbn [klog calls pages backing major_num dev disk
       register_blkdev_ret alloc_disk_ret blk_mq_init_sq_queue_ret
       kmalloc_ret blk_update_request_ret with_queue_ret] in *.

Ltac evaluate := cbv -[Z.ltb Z.opp app ledger_of].

(** A refused registration: [init_fn] returns [-EBUSY] after that one call,
    whatever the descriptor pointer is; the ledger, the descriptor and the
    disk are as before, and [major_num] now holds the error code. *)
Theorem init_fn_register_failure_state (h : host) (k : kernel) :
  register_blkdev_ret h (major_num k) < 0 ->
  exists k',
    init_fn h k = Done (- EBUSY) k' /\
    major_num k' = register_blkdev_ret h (major_num k) /\
    dev k' = dev k /\ disk k' = disk k /\
    calls k' = calls k ++
      [Cregister_blkdev (major_num k) BLOCK_DEV_NAME
         (register_blkdev_ret h (major_num k))] /\
    ledger_of (calls k') = ledger_of (calls k).
Proof.
  intros Hneg. open_state h k. apply Z.ltb_lt in Hneg.
  evaluate. rewrite Hneg.
  eexists. split; [reflexivity|]. cbn [major_num dev disk calls].
  repeat apply conj; try reflexivity.
  rewrite ledger_of_app. cbn [fold_left account]. now rewrite Hneg.
Qed.

Lemma init_fn_register_failure_state_witness :
  register_blkdev_ret host_register_fails (major_num module_load_state) < 0 /\
  exists k',
    init_fn host_register_fails module_load_state = Done (- EBUSY) k' /\
    major_num k'
      = register_blkdev_ret host_register_fails (major_num module_load_state) /\
    dev k' = dev module_load_state /\ disk k' = disk module_load_state /\
    calls k' = calls module_load_state ++
      [Cregister_blkdev (major_num module_load_state) BLOCK_DEV_NAME
         (register_blkdev_ret host_register_fails
            (major_num module_load_state))] /\
    ledger_of (calls k') = ledger_of (calls module_load_state).
Proof.
  split; [vm_compute; reflexivity|].
  apply (init_fn_register_failure_state host_register_fails
           module_load_state).
  vm_compute; reflexivity.
Defined.

Lemma init_fn_disk_failure_witness :
  dev descriptor_state = Some zeroed_dev /\
  0 <= register_blkdev_ret host_disk_fails (major_num descriptor_state) /\
  alloc_disk_ret host_disk_fails = NULL /\
  exists k',
    init_fn host_disk_fails descriptor_state = Done (- ENOMEM) k' /\
    calls k' = calls descriptor_state ++
      [Cregister_blkdev (major_num descriptor_state) BLOCK_DEV_NAME
         (register_blkdev_ret host_disk_fails (major_num descriptor_state));
       Calloc_disk 1 NULL;
       Cunregister_blkdev
         (register_blkdev_ret host_disk_fails (major_num descriptor_state))
         BLOCK_DEV_NAME].
Proof.
  split; [reflexivity|]. split; [vm_compute; discriminate|].
  split; [reflexivity|].
  apply (init_fn_disk_failure host_disk_fails descriptor_state zeroed_dev).
  - reflexivity.
  - vm_compute; discriminate.
  - reflexivity.
Defined.

Lemma init_fn_without_descriptor_witness :
  dev module_load_state = None /\
  0 <= register_blkdev_ret host_ok (major_num module_load_state) /\
  exists k',
    init_fn host_ok module_load_state = Oops NullDeref k' /\
    dev k' = None /\
    calls k' = calls module_load_state ++
      [Cregister_blkdev (major_num module_load_state) BLOCK_DEV_NAME
         (register_blkdev_ret host_ok (major_num module_load_state));
       Calloc_disk 1 (alloc_disk_ret host_ok)].
Proof.
  split; [reflexivity|]. split; [vm_compute; discriminate|].
  apply (init_fn_without_descriptor host_ok module_load_state).
  - reflexivity.
  - vm_compute; discriminate.
Defined.

(** A complete setup: with a descriptor in place, the number granted, a
    disk object handed out and a buffer that is not null, [init_fn] returns
    0 after six host calls of which [add_disk] is the last.  The disk
    carries the granted major, minor 0, the operations table, the name and
    1024 sectors; the descriptor records 524288 bytes of device size while
    8 bytes were asked of [kmalloc]; whatever the queue creation answered
    is stored as the queue. *)
Theorem init_fn_success (h : host) (k : kernel) (d : my_block_dev)
  (a : nat) :
  dev k = Some d ->
  0 <= register_blkdev_ret h (major_num k) ->
  alloc_disk_ret h = Obj a ->
  is_null (kmalloc_ret h) = false ->
  exists k',
    init_fn h k = Done 0 k' /\
    calls k' = calls k ++
      [Cregister_blkdev (major_num k) BLOCK_DEV_NAME
         (register_blkdev_ret h (major_num k));
       Calloc_disk 1 (Obj a);
       Cblk_mq_init_sq_queue my_bmq_ops 128 (blk_mq_init_sq_queue_ret h);
       Cset_capacity (Obj a) 1024;
       Ckmalloc 8 (kmalloc_ret h);
       Cadd_disk (Obj a)] /\
    major_num k' = register_blkdev_ret h (major_num k) /\
    dev k' = Some {| gd := Obj a; queue := blk_mq_init_sq_queue_ret h;
                     data := kmalloc_ret h; size := 524288 |} /\
    disk k' = {| major := register_blkdev_ret h (major_num k);
                 first_minor := 0; fops := Some my_bops;
                 gd_queue := blk_mq_init_sq_queue_ret h;
                 private_data := true; disk_name := "my_block_device";
                 capacity := 1024 |}.
Proof.
  intros Hdev Hreg Hdisk Hbuf. open_state h k. subst dv ad.
  apply Z.ltb_ge in Hreg. evaluate.
  destruct (reg mj <? 0); [discriminate Hreg|].
  destruct km; [discriminate Hbuf| |];
    (eexists; split; [reflexivity|]; cbn [calls major_num dev disk];
     rewrite <- !app_assoc; repeat apply conj; reflexivity).
Qed.

Lemma init_fn_success_witness :
  dev descriptor_state = Some zeroed_dev /\
  0 <= register_blkdev_ret host_ok (major_num descriptor_state) /\
  alloc_disk_ret host_ok = Obj 1 /\
  is_null (kmalloc_ret host_ok) = false /\
  exists k',
    init_fn host_ok descriptor_state = Done 0 k' /\
    calls k' = calls descriptor_state ++
      [Cregister_blkdev (major_num descriptor_state) BLOCK_DEV_NAME
         (register_blkdev_ret host_ok (major_num descriptor_state));
       Calloc_disk 1 (Obj 1);
       Cblk_mq_init_sq_queue my_bmq_ops 128
         (blk_mq_init_sq_queue_ret host_ok);
       Cset_capacity (Obj 1) 1024;
       Ckmalloc 8 (kmalloc_ret host_ok);
       Cadd_disk (Obj 1)] /\
    major_num k'
      = register_blkdev_ret host_ok (major_num descriptor_state) /\
    dev k' = Some {| gd := Obj 1; queue := blk_mq_init_sq_queue_ret host_ok;
                     data := kmalloc_ret host_ok; size := 524288 |} /\
    disk k' = {| major := register_blkdev_ret host_ok
                            (major_num descriptor_state);
                 first_minor := 0; fops := Some my_bops;
                 gd_queue := blk_mq_init_sq_queue_ret host_ok;
                 private_data := true; disk_name := "my_block_device";
                 capacity := 1024 |}.
Proof.
  split; [reflexivity|]. split; [vm_compute; discriminate|].
  split; [reflexivity|]. split; [reflexivity|].
  apply (init_fn_success host_ok descriptor_state zeroed_dev 1).
  - reflexivity.
  - vm_compute; discriminate.
  - reflexivity.
  - reflexivity.
Defined.

(** The result of the queue creation is never examined: whatever
    [blk_mq_init_sq_queue] returns, [init_fn] returns the same value, or
    stops the same way. *)
Theorem init_fn_ignores_queue_result (h : host) (q : ptr) (k : kernel) :
  result_of (init_fn (with_queue_ret q h) k) = result_of (init_fn h k).
Proof.
  open_state h k. evaluate.
  destruct (reg mj <? 0); [reflexivity|].
  destruct dv as [d|]; [|reflexivity].
  destruct ad; try reflexivity.
  destruct km; try reflexivity.
  destruct q, qr; reflexivity.
Qed.

(** [init_fn] has three return values, 0, [-EBUSY] and [-ENOMEM], and one
    way to stop early, the access through a pointer that is no object. *)
Theorem init_fn_return_codes (h : host) (k : kernel) :
  match init_fn h k with
  | Done v _ => v = 0 \/ v = - EBUSY \/ v = - ENOMEM
  | Oops f _ => f = NullDeref
  end.
Proof.
  open_state h k. evaluate.
  destruct (reg mj <? 0); [right; left; reflexivity|].
  destruct dv as [d|]; [|reflexivity].
  destruct ad; try reflexivity; [right; right; reflexivity|].
  destruct km; try (left; reflexivity).
  destruct qr; right; right; reflexivity.
Qed.

(** The disk is published exactly by the runs that return 0: [add_disk] is
    among the calls [init_fn] makes if and only if it returns 0. *)
Theorem init_fn_publishes_iff_success (h : host) (k : kernel) :
  exists cs' : list hcall,
    calls (final_state (init_fn h k)) = calls k ++ cs' /\
    existsb is_add_disk cs' =
    match result_of (init_fn h k) with
    | Some 0 => true
    | _ => false
    end.
Proof.
  open_state h k. evaluate.
  destruct (reg mj <? 0); [|destruct dv as [d|]; [destruct ad; [|
    |destruct km; [destruct qr| |]]|]];
    repeat setoid_rewrite <- app_assoc;
    eexists; (split; [reflexivity | reflexivity]).
Qed.

(** Every run that returns [-ENOMEM] ends with the deregistration of the
    number it was granted. *)
Theorem init_fn_enomem_deregisters (h : host) (k : kernel) :
  result_of (init_fn h k) = Some (- ENOMEM) ->
  exists cs' : list hcall,
    calls (final_state (init_fn h k)) =
    calls k ++ cs' ++
      [Cunregister_blkdev (register_blkdev_ret h (major_num k))
         BLOCK_DEV_NAME].
Proof.
  open_state h k. evaluate.
  destruct (reg mj <? 0); [|destruct dv as [d|]; [destruct ad; [|
    |destruct km; [destruct qr| |]]|]];
    intros H; try (cbv in H; discriminate H);
    repeat setoid_rewrite <- app_assoc;
    [exists [Cregister_blkdev mj "my_block_device" (reg mj);
             Calloc_disk 1 NULL]
    |eexists (_ :: _ :: _ :: _ :: _ :: [_])
    |eexists (_ :: _ :: _ :: _ :: _ :: _ :: _ :: [_])
    |eexists (_ :: _ :: _ :: _ :: _ :: _ :: _ :: [_])];
    reflexivity.
Qed.

Lemma init_fn_enomem_deregisters_witness :
  result_of (init_fn host_kmalloc_fails descriptor_state)
    = Some (- ENOMEM) /\
  exists cs' : list hcall,
    calls (final_state (init_fn host_kmalloc_fails descriptor_state)) =
    calls descriptor_state ++ cs' ++
      [Cunregister_blkdev
         (register_blkdev_ret host_kmalloc_fails (major_num descriptor_state))
         BLOCK_DEV_NAME].
Proof.
  split; [vm_compute; reflexivity|].
  apply (init_fn_enomem_deregisters host_kmalloc_fails descriptor_state).
  vm_compute; reflexivity.
Defined.

(** Teardown keeps no record of what it released: it leaves the descriptor
    and [major_num] as they were, so with a descriptor in place it always
    returns, and a second run makes the same host calls again, ending like
    the first with [kfree] of the buffer pointer and the deregistration. *)
Theorem cleanup_fn_repeats (k : kernel) (d : my_block_dev) :
  dev k = Some d ->
  exists (cs' : list hcall) (line : string),
    cleanup_fn k = Done tt (emit [line] cs' k) /\
    cleanup_fn (emit [line] cs' k)
      = Done tt (emit [line] cs' (emit [line] cs' k)) /\
    dev (emit [line] cs' k) = Some d /\
    major_num (emit [line] cs' k) = major_num k /\
    exists cs0,
      cs' = cs0 ++ [Ckfree (data d);
                    Cunregister_blkdev (major_num k) BLOCK_DEV_NAME].
Proof.
  intros Hdev. destruct k as [lg cs pg bk mj dv dk].
  cbn [dev] in Hdev. subst dv. destruct d as [g q b sz].
  cbv -[app].
  destruct g, q;
    repeat setoid_rewrite <- app_assoc;
    eexists; eexists;
    (split; [reflexivity|]); (split; [reflexivity|]);
    (split; [reflexivity|]); (split; [reflexivity|]).
  all: first
    [ exists []; reflexivity
    | eexists [_; _]; reflexivity
    | eexists [_; _; _; _]; reflexivity ].
Qed.

Lemma cleanup_fn_repeats_witness :
  dev (final_state (init_fn host_ok descriptor_state))
    = Some {| gd := Obj 1; queue := Obj 2; data := Obj 3; size := 524288 |} /\
  exists (cs' : list hcall) (line : string),
    cleanup_fn (final_state (init_fn host_ok descriptor_state))
      = Done tt (emit [line] cs'
                   (final_state (init_fn host_ok descriptor_state))) /\
    cleanup_fn (emit [line] cs'
                  (final_state (init_fn host_ok descriptor_state)))
      = Done tt (emit [line] cs'
                   (emit [line] cs'
                      (final_state (init_fn host_ok descriptor_state)))) /\
    dev (emit [line] cs' (final_state (init_fn host_ok descriptor_state)))
      = Some {| gd := Obj 1; queue := Obj 2; data := Obj 3;
                size := 524288 |} /\
    major_num (emit [line] cs'
                 (final_state (init_fn host_ok descriptor_state)))
      = major_num (final_state (init_fn host_ok descriptor_state)) /\
    exists cs0,
      cs' = cs0 ++
        [Ckfree (data {| gd := Obj 1; queue := Obj 2; data := Obj 3;
                         size := 524288 |});
         Cunregister_blkdev
           (major_num (final_state (init_fn host_ok descriptor_state)))
           BLOCK_DEV_NAME].
Proof.
  split; [vm_compute; reflexivity|].
  apply (cleanup_fn_repeats (final_state (init_fn host_ok descriptor_state))
           {| gd := Obj 1; queue := Obj 2; data := Obj 3; size := 524288 |}).
  vm_compute; reflexivity.
Defined.

(** The guard on the queue is a null test, and an error pointer is not
    null: with an error pointer stored as the queue, teardown frees the tag
    set and cleans up the queue all the same. *)
Theorem cleanup_fn_error_pointer_queue (k : kernel) (d : my_block_dev)
  (e : Z) :
  dev k = Some d ->
  queue d = ERR_PTR e ->
  exists cs1 cs2 : list hcall,
    calls (final_state (cleanup_fn k)) =
    calls k ++ cs1 ++
      [Cblk_mq_free_tag_set; Cblk_cleanup_queue (ERR_PTR e)] ++ cs2.
Proof.
  intros Hdev Hq. destruct k as [lg cs pg bk mj dv dk].
  cbn [dev] in Hdev. subst dv. destruct d as [g q b sz].
  cbn [queue] in Hq. subst q.
  cbv -[app].
  destruct g; repeat setoid_rewrite <- app_assoc;
    first [ exists []; eexists [_; _]; reflexivity
          | eexists [_; _]; eexists [_; _]; reflexivity ].
Qed.

Lemma cleanup_fn_error_pointer_queue_witness :
  dev (final_state (init_fn host_queue_fails descriptor_state))
    = Some {| gd := Obj 1; queue := ERR_PTR (-12); data := Obj 3;
              size := 524288 |} /\
  queue {| gd := Obj 1; queue := ERR_PTR (-12); data := Obj 3;
           size := 524288 |} = ERR_PTR (-12) /\
  exists cs1 cs2 : list hcall,
    calls (final_state
             (cleanup_fn
                (final_state (init_fn host_queue_fails descriptor_state)))) =
    calls (final_state (init_fn host_queue_fails descriptor_state))
      ++ cs1 ++
      [Cblk_mq_free_tag_set; Cblk_cleanup_queue (ERR_PTR (-12))] ++ cs2.
Proof.
  split; [vm_compute; reflexivity|]. split; [reflexivity|].
  apply (cleanup_fn_error_pointer_queue
           (final_state (init_fn host_queue_fails descriptor_state))
           {| gd := Obj 1; queue := ERR_PTR (-12); data := Obj 3;
              size := 524288 |} (-12)).
  - vm_compute; reflexivity.
  - reflexivity.
Defined.

(** Setup followed by teardown, every host call succeeding: the six calls
    of setup, then [del_gendisk], [put_disk], [blk_mq_free_tag_set],
    [blk_cleanup_queue], [kfree] and [unregister_blkdev], each once and on
    the handle setup obtained; in the ledger every resource setup acquired
    is released once and nothing else is. *)
Theorem setup_then_teardown_balanced (h : host) (k : kernel)
  (d : my_block_dev) (a q b : nat) :
  dev k = Some d ->
  0 <= register_blkdev_ret h (major_num k) ->
  alloc_disk_ret h = Obj a ->
  blk_mq_init_sq_queue_ret h = Obj q ->
  kmalloc_ret h = Obj b ->
  result_of (setup_then_teardown h k) = Some tt /\
  calls (final_state (setup_then_teardown h k)) =
    calls k ++
      [Cregister_blkdev (major_num k) BLOCK_DEV_NAME
         (register_blkdev_ret h (major_num k));
       Calloc_disk 1 (Obj a);
       Cblk_mq_init_sq_queue my_bmq_ops 128 (Obj q);
       Cset_capacity (Obj a) 1024;
       Ckmalloc 8 (Obj b);
       Cadd_disk (Obj a);
       Cdel_gendisk (Obj a);
       Cput_disk (Obj a);
       Cblk_mq_free_tag_set;
       Cblk_cleanup_queue (Obj q);
       Ckfree (Obj b);
       Cunregister_blkdev (register_blkdev_ret h (major_num k))
         BLOCK_DEV_NAME] /\
  ledger_of (calls (final_state (setup_then_teardown h k)))
    = ledger_of (calls k).
Proof.
  intros Hdev Hreg Hdisk Hq Hbuf. open_state h k. subst dv ad qr km.
  apply Z.ltb_ge in Hreg. evaluate.
  destruct (reg mj <? 0) eqn:E; [discriminate Hreg|].
  repeat setoid_rewrite <- app_assoc. cbn [app].
  split; [reflexivity|]. split; [reflexivity|].
  rewrite ledger_of_app. destruct (ledger_of cs) as [hd bad].
  cbn [fold_left account]. rewrite E.
  cbv [acquire release is_obj is_null]. cbn. reflexivity.
Qed.

Lemma setup_then_teardown_balanced_witness :
  dev descriptor_state = Some zeroed_dev /\
  0 <= register_blkdev_ret host_ok (major_num descriptor_state) /\
  alloc_disk_ret host_ok = Obj 1 /\
  blk_mq_init_sq_queue_ret host_ok = Obj 2 /\
  kmalloc_ret host_ok = Obj 3 /\
  result_of (setup_then_teardown host_ok descriptor_state) = Some tt /\
  calls (final_state (setup_then_teardown host_ok descriptor_state)) =
    calls descriptor_state ++
      [Cregister_blkdev (major_num descriptor_state) BLOCK_DEV_NAME
         (register_blkdev_ret host_ok (major_num descriptor_state));
       Calloc_disk 1 (Obj 1);
       Cblk_mq_init_sq_queue my_bmq_ops 128 (Obj 2);
       Cset_capacity (Obj 1) 1024;
       Ckmalloc 8 (Obj 3);
       Cadd_disk (Obj 1);
       Cdel_gendisk (Obj 1);
       Cput_disk (Obj 1);
       Cblk_mq_free_tag_set;
       Cblk_cleanup_queue (Obj 2);
       Ckfree (Obj 3);
       Cunregister_blkdev
         (register_blkdev_ret host_ok (major_num descriptor_state))
         BLOCK_DEV_NAME] /\
  ledger_of (calls (final_state
               (setup_then_teardown host_ok descriptor_state)))
    = ledger_of (calls descriptor_state).
Proof.
  split; [reflexivity|]. split; [vm_compute; discriminate|].
  split; [reflexivity|]. split; [reflexivity|]. split; [reflexivity|].
  apply (setup_then_teardown_balanced host_ok descriptor_state zeroed_dev
           1 2 3).
  - reflexivity.
  - vm_compute; discriminate.
  - reflexivity.
  - reflexivity.
  - reflexivity.
Defined.
